(** * The quiz game component of [src/app/page.tsx]

    A shallow embedding of the React component [Game]: its [useState] hooks
    as a record, its handlers and effects as functions on that record and on
    the browser environment (localStorage, the imported question bank, the
    pending [setTimeout] callbacks), and the user interface as the set of
    events the rendered screen offers. *)

From Stdlib Require Import ZArith String Ascii List Bool Lia Sorted Permutation.
From stdpp Require Import base option list gmap strings.
Import ListNotations.

Local Open Scope string_scope.

(** ** Data: the two interfaces of the source *)

Record Question := mkQuestion {
  type : string;
  content : string;
  options : option (list string);
  answer : string;
  hint : string
}.

Module LeaderboardEntry.
Record t := mk { name : string; score : Z }.
End LeaderboardEntry.

Abbreviation LeaderboardEntry := LeaderboardEntry.t.

#[global] Instance Question_eq_dec : EqDecision Question.
Proof. solve_decision. Defined.

#[global] Instance LeaderboardEntry_eq_dec : EqDecision LeaderboardEntry.
Proof. solve_decision. Defined.

(** ** The component state: one field per [useState] hook *)

Inductive GameState := start | playing | won | lost.

#[global] Instance GameState_eq_dec : EqDecision GameState.
Proof. solve_decision. Defined.

Record State := mkState {
  userName : string;
  category : string;
  gameState : GameState;
  currentQuestions : list Question;
  currentQuestionIndex : option nat;
  score : Z;
  highestScore : Z;
  leaderboard : list LeaderboardEntry;
  selectedOption : option string;
  userAnswer : string;
  timer : Z;
  isPaused : bool;
  showHint : bool;
  showValidationMessage : bool
}.

(** The setters returned by [useState]. *)

Definition setUserName (v : string) (s : State) : State :=
  mkState v (category s) (gameState s) (currentQuestions s)
    (currentQuestionIndex s) (score s) (highestScore s) (leaderboard s)
    (selectedOption s) (userAnswer s) (timer s) (isPaused s) (showHint s)
    (showValidationMessage s).

Definition setCategory (v : string) (s : State) : State :=
  mkState (userName s) v (gameState s) (currentQuestions s)
    (currentQuestionIndex s) (score s) (highestScore s) (leaderboard s)
    (selectedOption s) (userAnswer s) (timer s) (isPaused s) (showHint s)
    (showValidationMessage s).

Definition setGameState (v : GameState) (s : State) : State :=
  mkState (userName s) (category s) v (currentQuestions s)
    (currentQuestionIndex s) (score s) (highestScore s) (leaderboard s)
    (selectedOption s) (userAnswer s) (timer s) (isPaused s) (showHint s)
    (showValidationMessage s).

Definition setCurrentQuestions (v : list Question) (s : State) : State :=
  mkState (userName s) (category s) (gameState s) v
    (currentQuestionIndex s) (score s) (highestScore s) (leaderboard s)
    (selectedOption s) (userAnswer s) (timer s) (isPaused s) (showHint s)
    (showValidationMessage s).

Definition setCurrentQuestionIndex (v : option nat) (s : State) : State :=
  mkState (userName s) (category s) (gameState s) (currentQuestions s)
    v (score s) (highestScore s) (leaderboard s)
    (selectedOption s) (userAnswer s) (timer s) (isPaused s) (showHint s)
    (showValidationMessage s).

(** [setScore] and [setTimer] are also called with an updater function
    ([prev => prev + 1]), which React applies to the value current when the
    update is processed, not to the one the caller's render saw. *)
Definition setScore (f : Z -> Z) (s : State) : State :=
  mkState (userName s) (category s) (gameState s) (currentQuestions s)
    (currentQuestionIndex s) (f (score s)) (highestScore s) (leaderboard s)
    (selectedOption s) (userAnswer s) (timer s) (isPaused s) (showHint s)
    (showValidationMessage s).

Definition setHighestScore (v : Z) (s : State) : State :=
  mkState (userName s) (category s) (gameState s) (currentQuestions s)
    (currentQuestionIndex s) (score s) v (leaderboard s)
    (selectedOption s) (userAnswer s) (timer s) (isPaused s) (showHint s)
    (showValidationMessage s).

Definition setLeaderboard (v : list LeaderboardEntry) (s : State) : State :=
  mkState (userName s) (category s) (gameState s) (currentQuestions s)
    (currentQuestionIndex s) (score s) (highestScore s) v
    (selectedOption s) (userAnswer s) (timer s) (isPaused s) (showHint s)
    (showValidationMessage s).

Definition setSelectedOption (v : option string) (s : State) : State :=
  mkState (userName s) (category s) (gameState s) (currentQuestions s)
    (currentQuestionIndex s) (score s) (highestScore s) (leaderboard s)
    v (userAnswer s) (timer s) (isPaused s) (showHint s)
    (showValidationMessage s).

Definition setUserAnswer (v : string) (s : State) : State :=
  mkState (userName s) (category s) (gameState s) (currentQuestions s)
    (currentQuestionIndex s) (score s) (highestScore s) (leaderboard s)
    (selectedOption s) v (timer s) (isPaused s) (showHint s)
    (showValidationMessage s).

Definition setTimer (f : Z -> Z) (s : State) : State :=
  mkState (userName s) (category s) (gameState s) (currentQuestions s)
    (currentQuestionIndex s) (score s) (highestScore s) (leaderboard s)
    (selectedOption s) (userAnswer s) (f (timer s)) (isPaused s) (showHint s)
    (showValidationMessage s).

Definition setIsPaused (v : bool) (s : State) : State :=
  mkState (userName s) (category s) (gameState s) (currentQuestions s)
    (currentQuestionIndex s) (score s) (highestScore s) (leaderboard s)
    (selectedOption s) (userAnswer s) (timer s) v (showHint s)
    (showValidationMessage s).

Definition setShowHint (v : bool) (s : State) : State :=
  mkState (userName s) (category s) (gameState s) (currentQuestions s)
    (currentQuestionIndex s) (score s) (highestScore s) (leaderboard s)
    (selectedOption s) (userAnswer s) (timer s) (isPaused s) v
    (showValidationMessage s).

Definition setShowValidationMessage (v : bool) (s : State) : State :=
  mkState (userName s) (category s) (gameState s) (currentQuestions s)
    (currentQuestionIndex s) (score s) (highestScore s) (leaderboard s)
    (selectedOption s) (userAnswer s) (timer s) (isPaused s) (showHint s)
    v.

(** The values the hooks are initialised with (lines 23-36). *)
Definition initialState : State :=
  mkState "" "" start [] None 0 0 [] None "" 30 false false false.

(** ** The environment of the component *)

(** A localStorage item.  The component stores [JSON.stringify] of an array
    of entries and reads it back with [JSON.parse]; an item is modelled by
    what [JSON.parse] makes of it: [Json l] for the text of an array of
    entries [l], [Text t] for any other text [t], on which it throws (a
    text that parses to something that is not an array of entries is left
    out of the model). *)
Inductive Item :=
| Json (l : list LeaderboardEntry)
| Text (t : string).

(** A callback scheduled by [handleAnswer] with [setTimeout(..., 1000)]: it
    closes over [correct] and over the variables of the render in which the
    handler was created. *)
Record Reveal := mkReveal {
  correct : bool;
  closure : State
}.

(** [localStorage] is [None] when the browser refuses access to it, so that
    every call on it throws.  [questionsData] is the imported JSON module: an
    object of arrays that live as long as the page.  [reveals] are the
    pending callbacks of [handleAnswer] in the order they were scheduled,
    [hints] counts the pending callbacks of [handleHint], [console] collects
    the messages of [console.error] and [console.warn]. *)
Record World := mkWorld {
  ui : State;
  localStorage : option (gmap string Item);
  questionsData : gmap string (list Question);
  reveals : list Reveal;
  hints : nat;
  console : list string
}.

Definition onUi (f : State -> State) (w : World) : World :=
  mkWorld (f (ui w)) (localStorage w) (questionsData w) (reveals w) (hints w)
    (console w).

Definition withLocalStorage (m : gmap string Item) (w : World) : World :=
  mkWorld (ui w) (Some m) (questionsData w) (reveals w) (hints w) (console w).

Definition withQuestionsData (q : gmap string (list Question)) (w : World)
  : World :=
  mkWorld (ui w) (localStorage w) q (reveals w) (hints w) (console w).

Definition withReveals (r : list Reveal) (w : World) : World :=
  mkWorld (ui w) (localStorage w) (questionsData w) r (hints w) (console w).

Definition withHints (n : nat) (w : World) : World :=
  mkWorld (ui w) (localStorage w) (questionsData w) (reveals w) n (console w).

Definition log (msg : string) (w : World) : World :=
  mkWorld (ui w) (localStorage w) (questionsData w) (reveals w) (hints w)
    (console w ++ [msg]).

(** ** Library functions of the runtime *)

(** [String.prototype.toLowerCase] on the ASCII letters. *)
Definition lowerAscii (c : ascii) : ascii :=
  let n := nat_of_ascii c in
  if (65 <=? n)%nat && (n <=? 90)%nat then ascii_of_nat (n + 32) else c.

Fixpoint toLowerCase (s : string) : string :=
  match s with
  | EmptyString => EmptyString
  | String c r => String (lowerAscii c) (toLowerCase r)
  end.

(** [Array.prototype.sort] with a consistent comparator: the sort is stable
    (ECMAScript 2019), so its result is the one of a stable insertion sort;
    [a] stays before [b] unless [compareFn a b > 0]. *)
Section ArraySort.
Context {A : Type} (compareFn : A -> A -> Z).

Fixpoint sortInsert (a : A) (l : list A) : list A :=
  match l with
  | [] => [a]
  | b :: r => if (0 <? compareFn a b)%Z then b :: sortInsert a r
              else a :: b :: r
  end.

Fixpoint Array_sort (l : list A) : list A :=
  match l with
  | [] => []
  | a :: r => sortInsert a (Array_sort r)
  end.
End ArraySort.

(** [Math.max(...xs)] of a non-empty array. *)
Definition Math_max (x : Z) (xs : list Z) : Z := fold_left Z.max xs x.

(** ** Handlers and effects

    A handler or effect runs with the variables of the render that created
    it ([s], its scope) and updates the world current when it runs ([w]).
    For a click the two coincide; for a [setTimeout] callback they do not. *)

(** [isLocalStorageAvailable] (lines 39-48): the probe writes and removes
    the item [localStorageTest]. *)
Definition isLocalStorageAvailable (w : World) : bool * World :=
  match localStorage w with
  | None => (false, w)
  | Some m =>
      let test := "localStorageTest" in
      (true, withLocalStorage (delete test (<[test := Text test]> m)) w)
  end.

Definition storageKey (category : string) : string :=
  "leaderboard_" ++ category.

(** [JSON.parse(localStorage.getItem(key) || '[]')]: [None] when it throws. *)
Definition parseStored (m : gmap string Item) (key : string)
  : option (list LeaderboardEntry) :=
  match m !! key with
  | None => Some []
  | Some (Json l) => Some l
  | Some (Text t) => if String.eqb t "" then Some [] else None
  end.

Definition maxScoreOf (storedScores : list LeaderboardEntry) : Z :=
  match map LeaderboardEntry.score storedScores with
  | [] => 0
  | x :: xs => Math_max x xs
  end.

(** The effect on [category] (lines 50-70). *)
Definition leaderboardEffect (s : State) (w : World) : World :=
  if negb (String.eqb (category s) "")
     && bool_decide (is_Some (questionsData w !! category s))
  then
    let '(available, w1) := isLocalStorageAvailable w in
    if available then
      match localStorage w1 ≫= (fun m => parseStored m (storageKey (category s))) with
      | Some storedScores =>
          onUi (setLeaderboard storedScores)
            (onUi (setHighestScore (maxScoreOf storedScores)) w1)
      | None =>
          onUi (setLeaderboard [])
            (onUi (setHighestScore 0)
               (log "Error accessing localStorage:" w1))
      end
    else
      onUi (setLeaderboard [])
        (onUi (setHighestScore 0) (log "localStorage is not available" w1))
  else w.

(** The comparator [(a, b) => b.score - a.score] (line 149). *)
Definition byScoreDescending (a b : LeaderboardEntry) : Z :=
  (LeaderboardEntry.score b - LeaderboardEntry.score a)%Z.

(** [handleGameOver] (lines 145-158).  [leaderboard], [userName], [score]
    and [category] are the ones of the scope. *)
Definition handleGameOver (s : State) (w : World) : World :=
  let '(available, w1) := isLocalStorageAvailable w in
  if available then
    match localStorage w1 with
    | Some m =>
        let newLeaderboard :=
          Array_sort byScoreDescending
            (leaderboard s ++ [LeaderboardEntry.mk (userName s) (score s)]) in
        onUi (setLeaderboard newLeaderboard)
          (withLocalStorage
             (<[storageKey (category s) := Json newLeaderboard]> m) w1)
    | None => log "Error updating localStorage:" w1
    end
  else log "localStorage is not available" w1.

(** The condition under which the timer effect installs its interval. *)
Definition counting (s : State) : bool :=
  negb (isPaused s) && bool_decide (gameState s = playing) && (0 <? timer s)%Z.

(** The timer effect (lines 72-84), the interval apart: it is installed
    exactly when [counting] holds, and cleared when the effect runs again. *)
Definition timerEffect (s : State) (w : World) : World :=
  if counting s then w
  else if (timer s =? 0)%Z then handleGameOver s (onUi (setGameState lost) w)
  else w.

(** The callback of the interval (line 76). *)
Definition intervalCallback (w : World) : World :=
  onUi (setTimer (fun prevTimer => (prevTimer - 1)%Z)) w.

(** [handleAnswer] (lines 86-111) up to the call of [setTimeout].  Reading
    [answer] of a question that is not there throws before any update. *)
Definition handleAnswer (selected : string) (s : State) (w : World) : World :=
  match gameState s, currentQuestionIndex s with
  | playing, Some i =>
      match currentQuestions s !! i with
      | None => w
      | Some currentQuestion =>
          let correct :=
            String.eqb (toLowerCase (answer currentQuestion))
                       (toLowerCase selected) in
          withReveals (reveals w ++ [mkReveal correct s])
            (onUi (setSelectedOption (Some selected)) w)
      end
  | _, _ => w
  end.

(** The callback [handleAnswer] schedules (lines 94-110), run one second
    later on the world of that moment. *)
Definition revealCallback (r : Reveal) (w : World) : World :=
  let s := closure r in
  let w1 :=
    if correct r then
      let w2 := onUi (setScore (fun prevScore => (prevScore + 1)%Z)) w in
      if bool_decide (Z.of_nat <$> currentQuestionIndex s
                      = Some (Z.of_nat (length (currentQuestions s)) - 1)%Z)
      then onUi (setGameState won) w2
      else
        onUi (setUserAnswer "")
          (onUi (setSelectedOption None)
             (onUi (setCurrentQuestionIndex (S <$> currentQuestionIndex s)) w2))
    else handleGameOver s (onUi (setGameState lost) w) in
  onUi (setTimer (fun _ => 30%Z)) w1.

(** [handleStart] (lines 113-132).  [Array.prototype.sort] sorts the array
    it is called on in place and returns that same array, so the sorted
    array is both the bank's and the one given to [setCurrentQuestions].
    The comparator [() => Math.random() - 0.5] is not consistent; the order
    the sort leaves is the engine's choice and is the argument [shuffled].
    Calling [sort] on a category the bank does not have throws a TypeError,
    which the handler catches and logs. *)
Definition handleStart (shuffled : list Question) (s : State) (w : World)
  : World :=
  if String.eqb (userName s) "" || String.eqb (category s) "" then
    onUi (setShowValidationMessage true) w
  else
    match questionsData w !! category s with
    | None => log "Error starting the game:" w
    | Some _ =>
        let shuffledQuestions := shuffled in
        onUi (setTimer (fun _ => 30%Z))
          (onUi (setUserAnswer "")
          (onUi (setSelectedOption None)
          (onUi (setScore (fun _ => 0%Z))
          (onUi (setCurrentQuestionIndex (Some 0%nat))
          (onUi (setGameState playing)
          (onUi (setShowValidationMessage false)
          (onUi (setCurrentQuestions shuffledQuestions)
          (withQuestionsData
             (<[category s := shuffledQuestions]> (questionsData w)) w))))))))
    end.

(** [handlePauseResume] (lines 134-137). *)
Definition handlePauseResume (s : State) (w : World) : World :=
  onUi (setIsPaused (negb (isPaused s))) w.

(** [handleHint] (lines 139-143) and the callback it schedules. *)
Definition handleHint (w : World) : World :=
  withHints (S (hints w)) (onUi (setShowHint true) w).

Definition hintCallback (w : World) : World :=
  withHints (pred (hints w)) (onUi (setShowHint false) w).

(** ** Rendering: effects after an update

    After the updates of an event are applied React renders again and runs
    the effects whose dependencies differ from those of the previous render;
    an effect that updates the state causes one more render.  [commit] runs
    these rounds; [prev] is the state of the previous render.  Three rounds
    always reach a render after which no effect runs, as is proved below. *)

Definition timerDeps (s : State) : bool * GameState * Z :=
  (isPaused s, gameState s, timer s).

Fixpoint commit (rounds : nat) (prev : State) (w : World) : World :=
  match rounds with
  | O => w
  | S rounds' =>
      let s := ui w in
      let w1 := if bool_decide (category prev = category s) then w
                else leaderboardEffect s w in
      let w2 := if bool_decide (timerDeps prev = timerDeps s) then w1
                else timerEffect s w1 in
      commit rounds' s w2
  end.

Definition render (prev : State) (w : World) : World := commit 3 prev w.

(** ** The user interface: which events the rendered screen offers *)

Inductive Event :=
| ChangeUserName (value : string)
| ChangeCategory (value : string)
| ClickStart (shuffled : list Question)
| ClickOption (option : string)
| ChangeUserAnswer (value : string)
| ClickSubmit
| ClickPauseResume
| ClickHint
| IntervalTick
| RevealTimeout
| HintTimeout.

(** The question the playing screen shows (lines 231-296); the screen reads
    its fields, so rendering fails when it is not there. *)
Definition shownQuestion (s : State) : option Question :=
  match gameState s, currentQuestionIndex s with
  | playing, Some i => currentQuestions s !! i
  | _, _ => None
  end.

Definition textual (q : Question) : bool :=
  bool_decide (type q = "fill") || bool_decide (type q = "riddle").

Definition mounted (s : State) : bool :=
  match gameState s, currentQuestionIndex s with
  | playing, Some i => bool_decide (is_Some (currentQuestions s !! i))
  | _, _ => true
  end.

Definition enabled (e : Event) (w : World) : bool :=
  let s := ui w in
  mounted s &&
  match e with
  | ChangeUserName _ => bool_decide (gameState s = start)
  | ChangeCategory value =>
      bool_decide (gameState s = start)
      && (String.eqb value ""
          || bool_decide (is_Some (questionsData w !! value)))
  | ClickStart shuffled =>
      bool_decide (gameState s = start)
      && match questionsData w !! category s with
         | Some qs => bool_decide (shuffled ≡ₚ qs)
         | None => true
         end
  | ClickOption option =>
      match shownQuestion s with
      | Some q =>
          bool_decide (type q = "mcq")
          && bool_decide (option ∈ default [] (options q))
          && bool_decide (selectedOption s = None)
      | None => false
      end
  | ChangeUserAnswer _ | ClickSubmit =>
      match shownQuestion s with
      | Some q => textual q
      | None => false
      end
  | ClickPauseResume => bool_decide (is_Some (shownQuestion s))
  | ClickHint =>
      bool_decide (is_Some (shownQuestion s)) && negb (showHint s)
  | IntervalTick => counting s
  | RevealTimeout => bool_decide (reveals w ≠ [])
  | HintTimeout => bool_decide (hints w ≠ 0%nat)
  end.

Definition handle (e : Event) (w : World) : World :=
  let s := ui w in
  match e with
  | ChangeUserName value => onUi (setUserName value) w
  | ChangeCategory value => onUi (setCategory value) w
  | ClickStart shuffled => handleStart shuffled s w
  | ClickOption option => handleAnswer option s w
  | ChangeUserAnswer value => onUi (setUserAnswer value) w
  | ClickSubmit => handleAnswer (userAnswer s) s w
  | ClickPauseResume => handlePauseResume s w
  | ClickHint => handleHint w
  | IntervalTick => intervalCallback w
  | RevealTimeout =>
      match reveals w with
      | r :: rest => revealCallback r (withReveals rest w)
      | [] => w
      end
  | HintTimeout => hintCallback w
  end.

(** One event: ignored when the screen does not offer it, else handled and
    rendered. *)
Definition step (w : World) (e : Event) : World :=
  if enabled e w then render (ui w) (handle e w) else w.

Definition run (es : list Event) (w : World) : World := fold_left step es w.

(** The page as loaded: the first render runs both effects, and neither
    does anything on [initialState]. *)
Definition load (store : option (gmap string Item))
    (bank : gmap string (list Question)) : World :=
  mkWorld initialState store bank [] 0 [].

Definition reachable (store : option (gmap string Item))
    (bank : gmap string (list Question)) (w : World) : Prop :=
  exists es, w = run es (load store bank).

(** What the store holds for a category, as the leaderboard effect reads it. *)
Definition stored (w : World) (category : string)
  : option (list LeaderboardEntry) :=
  localStorage w ≫= (fun m => parseStored m (storageKey category)).

(** The order [handleGameOver] sorts into, and the entries of one score. *)


Definition scored (v : Z) (e : LeaderboardEntry) : Prop :=
  LeaderboardEntry.score e = v.

#[global] Instance scored_dec v e : Decision (scored v e).
Proof. unfold scored. apply _. Defined.

(** ** Sessions used as concrete inputs *)

Module Sessions.

Definition fourQ : Question := mkQuestion "fill" "2 + 2 = ?" None "Four" "even".
Definition pianoQ : Question :=
  mkQuestion "riddle" "What has keys but opens no lock?" None "piano" "music".
Definition marsQ : Question :=
  mkQuestion "mcq" "Which planet is the red one?" (Some ["Mars"; "Venus"])
    "Mars" "a god of war".
Definition h2oQ : Question :=
  mkQuestion "mcq" "Which one is water?" (Some ["CO2"; "H2O"]) "H2O" "two H".

(** A bank whose category has text questions, and one with choice
    questions. *)
Definition textBank : gmap string (list Question) :=
  {[ "science" := [fourQ; pianoQ] ]}.
Definition choiceBank : gmap string (list Question) :=
  {[ "science" := [marsQ; h2oQ] ]}.
Definition oneBank : gmap string (list Question) :=
  {[ "science" := [marsQ] ]}.

Definition emptyStore : option (gmap string Item) := Some ∅.

(** Ann enters her name, picks the category and starts; the sort leaves
    the questions in the order [qs]. *)
Definition begin (qs : list Question) : list Event :=
  [ChangeUserName "Ann"; ChangeCategory "science"; ClickStart qs].

(** She submits [value] for a text question; [submitTwice] clicks Submit
    again before the first callback has run. *)
Definition submit (value : string) : list Event :=
  [ChangeUserAnswer value; ClickSubmit].
Definition submitTwice (value : string) : list Event :=
  [ChangeUserAnswer value; ClickSubmit; ClickSubmit].

Definition ann (score : Z) : LeaderboardEntry := LeaderboardEntry.mk "Ann" score.


(** The start screen with name and category chosen. *)
Definition ready : World :=
  run [ChangeUserName "Ann"; ChangeCategory "science"]
    (load emptyStore textBank).

(** A session on its first question, ten seconds in, paused. *)
Definition paused : World :=
  run (begin [fourQ; pianoQ] ++ repeat IntervalTick 10 ++ [ClickPauseResume])
    (load emptyStore textBank).

(** Both questions answered correctly, one submission each. *)
Definition cleanWin : World :=
  run (begin [fourQ; pianoQ] ++ submit "four" ++ [RevealTimeout]
       ++ submit "PIANO" ++ [RevealTimeout])
    (load emptyStore textBank).

(** The first question answered correctly, the second one wrongly. *)
Definition cleanLoss : World :=
  run (begin [fourQ; pianoQ] ++ submit "four" ++ [RevealTimeout]
       ++ submit "drum" ++ [RevealTimeout])
    (load emptyStore textBank).

(** Submit clicked twice on the first question, within the second before
    the first callback runs. *)
Definition twice : World :=
  run (begin [fourQ; pianoQ] ++ submitTwice "four"
       ++ [RevealTimeout; RevealTimeout])
    (load emptyStore textBank).

(** The same with one click. *)
Definition once : World :=
  run (begin [fourQ; pianoQ] ++ submit "four" ++ [RevealTimeout])
    (load emptyStore textBank).

(** The second click after the answer was changed to a wrong one. *)
Definition changedAnswer : World :=
  run (begin [fourQ; pianoQ] ++ submit "four" ++ submit "five"
       ++ [RevealTimeout; RevealTimeout])
    (load emptyStore textBank).

(** After [twice], the last question answered correctly, or wrongly. *)
Definition twiceThenWin : World :=
  run (submit "PIANO" ++ [RevealTimeout]) twice.
Definition twiceThenLoss : World :=
  run (submit "drum" ++ [RevealTimeout]) twice.

(** The countdown of the first question runs out. *)
Definition timedOut : World :=
  run (begin [fourQ; pianoQ] ++ repeat IntervalTick 30)
    (load emptyStore textBank).

(** The right option is clicked in the last second of the first question;
    the interval fires before the callback of the click does. *)
Definition lateClick (bank : gmap string (list Question))
    (qs : list Question) : World :=
  run (begin qs ++ repeat IntervalTick 29 ++ [ClickOption "Mars"; IntervalTick])
    (load emptyStore bank).

End Sessions.

(** What the start screen looks like whenever it is shown: the category is
    the empty choice or one the bank has, and nothing of a session exists. *)
Definition startInvariant (w : World) : Prop :=
  (category (ui w) = "" \/ is_Some (questionsData w !! category (ui w)))
  /\ (gameState (ui w) = start ->
      isPaused (ui w) = false /\ score (ui w) = 0%Z /\ timer (ui w) = 30%Z
      /\ currentQuestionIndex (ui w) = None /\ reveals w = []).

(** ** What the screens show *)

(** [String.prototype.toUpperCase] on the ASCII letters. *)
Definition upperAscii (c : ascii) : ascii :=
  let n := nat_of_ascii c in
  if (97 <=? n)%nat && (n <=? 122)%nat then ascii_of_nat (n - 32) else c.


(** [cat.charAt(0).toUpperCase() + cat.slice(1)], the label of a category in
    the select (line 211) and in the title of the leaderboard (line 173). *)
Definition capitalize (cat : string) : string :=
  match cat with
  | EmptyString => EmptyString
  | String c r => String (upperAscii c) r
  end.

(** [renderLeaderboard] (lines 160-184): the note that there are no scores,
    or the title and one row per entry, in the order of [leaderboard]. *)
Inductive LeaderboardView :=
| NoScores
| Board (title : string) (rows : list (string * Z)).

Definition renderLeaderboard (s : State) : LeaderboardView :=
  if String.eqb (category s) "" || (length (leaderboard s) =? 0)%nat
  then NoScores
  else Board ("Leaderboard - " ++ capitalize (category s))
         (map (fun entry =>
                 (LeaderboardEntry.name entry, LeaderboardEntry.score entry))
              (leaderboard s)).



(** What the component returns (lines 187-315), as far as the game goes:
    the start form with its validation message, the playing screen with
    score, timer and question, or one of the two closing screens with the
    leaderboard.  [None] is a render that throws: the playing screen without
    a question to show.  With [gameState] playing and no index nothing is
    shown. *)
Inductive Screen :=
| StartScreen (validationMessage : bool)
| PlayingScreen (score timer : Z) (number : nat) (question : Question)
    (hintText : option string)
| WonScreen (score : Z) (board : LeaderboardView)
| LostScreen (board : LeaderboardView)
| Nothing.

Definition screen (s : State) : option Screen :=
  match gameState s with
  | start => Some (StartScreen (showValidationMessage s))
  | playing =>
      match currentQuestionIndex s with
      | None => Some Nothing
      | Some i =>
          match currentQuestions s !! i with
          | Some q =>
              Some (PlayingScreen (score s) (timer s) (i + 1) q
                      (if showHint s then Some (hint q) else None))
          | None => None
          end
      end
  | won => Some (WonScreen (score s) (renderLeaderboard s))
  | lost => Some (LostScreen (renderLeaderboard s))
  end.

(** ** What holds of every session the user interface can reach *)

(** The bank holds, for every category, the questions it was loaded with,
    in some order. *)
Definition sameBank (bank : gmap string (list Question)) (w : World) : Prop :=
  forall c,
    match questionsData w !! c, bank !! c with
    | Some l, Some l0 => l ≡ₚ l0
    | None, None => True
    | _, _ => False
    end.

(** The render a pending callback closes over is one of this session: same
    player, category and questions, taken on the playing screen at a
    question that exists, with a score that is not above the present one. *)
Definition closureOk (w : World) (r : Reveal) : Prop :=
  userName (closure r) = userName (ui w)
  /\ category (closure r) = category (ui w)
  /\ currentQuestions (closure r) = currentQuestions (ui w)
  /\ gameState (closure r) = playing
  /\ (score (closure r) <= score (ui w))%Z
  /\ exists i, currentQuestionIndex (closure r) = Some i
               /\ (i < length (currentQuestions (ui w)))%nat.

Record sessionInvariant (bank : gmap string (list Question)) (w : World)
  : Prop := {
  inv_start : startInvariant w;
  inv_bank : sameBank bank w;
  inv_session :
    gameState (ui w) <> start ->
    userName (ui w) <> "" /\ category (ui w) <> ""
    /\ (exists l0, bank !! category (ui w) = Some l0
                   /\ currentQuestions (ui w) ≡ₚ l0)
    /\ exists i, currentQuestionIndex (ui w) = Some i
                 /\ ((i < length (currentQuestions (ui w)))%nat
                     \/ currentQuestions (ui w) = []);
  inv_closures : Forall (closureOk w) (reveals w);
  inv_timer : (0 <= timer (ui w) <= 30)%Z;
  inv_score : (0 <= score (ui w))%Z;
  inv_hints : hints w = if showHint (ui w) then 1%nat else 0%nat
}.

(** What a session without a store looks like. *)
Definition noStore (w : World) : Prop :=
  localStorage w = None /\ leaderboard (ui w) = []
  /\ highestScore (ui w) = 0%Z.

(** * Properties *)

(** ** The sort of the leaderboard *)

Section SortFacts.
Context {A : Type} (compareFn : A -> A -> Z).

Lemma sortInsert_perm (a : A) (l : list A) :
  sortInsert compareFn a l ≡ₚ a :: l.
Proof.
  induction l as [|b r IH]; simpl; [done|].
  destruct (0 <? compareFn a b)%Z; [|done].
  rewrite IH. apply Permutation_swap.
Qed.

Lemma Array_sort_perm (l : list A) : Array_sort compareFn l ≡ₚ l.
Proof.
  induction l as [|a r IH]; simpl; [done|].
  by rewrite sortInsert_perm, IH.
Qed.
End SortFacts.





(** ** What the effects leave alone *)

(** The fields of the state that belong to the game: everything but the
    leaderboard and the highest score, which the two effects load and
    [handleGameOver] rewrites. *)
Definition sameGame (s s' : State) : Prop :=
  setLeaderboard [] (setHighestScore 0 s) = setLeaderboard [] (setHighestScore 0 s').

#[global] Instance sameGame_equiv : Equivalence sameGame.
Proof.
  unfold sameGame. split.
  - by intros s.
  - by intros s s' E.
  - intros s1 s2 s3 E1 E2. by rewrite E1.
Qed.

Lemma sameGame_fields (s s' : State) :
  sameGame s s' ->
  userName s = userName s' /\ category s = category s'
  /\ gameState s = gameState s' /\ currentQuestions s = currentQuestions s'
  /\ currentQuestionIndex s = currentQuestionIndex s' /\ score s = score s'
  /\ selectedOption s = selectedOption s' /\ userAnswer s = userAnswer s'
  /\ timer s = timer s' /\ isPaused s = isPaused s'
  /\ showHint s = showHint s'
  /\ showValidationMessage s = showValidationMessage s'.
Proof.
  destruct s, s'. unfold sameGame, setLeaderboard, setHighestScore. simpl.
  intros H. injection H as -> -> -> -> -> -> -> -> -> -> -> ->. repeat split.
Qed.

Lemma sameGame_setGameState (g : GameState) (s s' : State) :
  sameGame s s' -> sameGame (setGameState g s) (setGameState g s').
Proof.
  destruct s, s'. unfold sameGame, setLeaderboard, setHighestScore, setGameState.
  simpl. intros H. by injection H as -> -> -> -> -> -> -> -> -> -> -> ->.
Qed.

Lemma handleGameOver_sameGame (s : State) (w : World) :
  sameGame (ui w) (ui (handleGameOver s w)).
Proof.
  unfold handleGameOver, isLocalStorageAvailable.
  destruct (localStorage w); simpl; reflexivity.
Qed.

Lemma leaderboardEffect_sameGame (s : State) (w : World) :
  sameGame (ui w) (ui (leaderboardEffect s w)).
Proof.
  unfold leaderboardEffect, isLocalStorageAvailable.
  destruct (_ && _); [|reflexivity].
  destruct (localStorage w) as [m|]; simpl; [|reflexivity].
  destruct (parseStored _ _); simpl; reflexivity.
Qed.

(** The timer effect either leaves the game alone or, on a render whose
    timer is 0, ends it. *)
Lemma timerEffect_cases (s : State) (w : World) :
  sameGame (ui w) (ui (timerEffect s w))
  \/ (counting s = false /\ timer s = 0%Z
      /\ sameGame (setGameState lost (ui w)) (ui (timerEffect s w))).
Proof.
  unfold timerEffect.
  destruct (counting s) eqn:Hc; [by left|].
  destruct (timer s =? 0)%Z eqn:Ht; [|by left].
  right. apply Z.eqb_eq in Ht. repeat split; [done|].
  apply (handleGameOver_sameGame s (onUi (setGameState lost) w)).
Qed.

Lemma sameGame_deps (s s' : State) :
  sameGame s s' -> category s = category s' /\ timerDeps s = timerDeps s'.
Proof.
  intros H. apply sameGame_fields in H. unfold timerDeps.
  destruct H as (_ & -> & -> & _ & _ & _ & _ & _ & -> & -> & _). done.
Qed.

(** ** Rendering settles *)

Lemma commit_quiet (n : nat) (prev : State) (w : World) :
  category prev = category (ui w) -> timerDeps prev = timerDeps (ui w) ->
  commit n prev w = w.
Proof.
  revert prev. induction n as [|n IH]; intros prev Hc Hd; simpl; [done|].
  rewrite !bool_decide_eq_true_2 by done. by apply IH.
Qed.

(** Rendering settles: whatever the update, the third render runs no effect
    any more, so further rounds change nothing. *)
Theorem commit_settles (n : nat) (prev : State) (w : World) :
  commit (3 + n) prev w = render prev w.
Proof.
  unfold render.
  change (3 + n)%nat with (S (S (S n))).
  remember (S n) as k eqn:Hk.
  change (commit 3 prev w) with (commit (S (S 1)) prev w).
  generalize 1%nat as j. subst k. generalize (S n) as k. clear n.
  intros k j. simpl.
  set (w1 := if bool_decide (category prev = category (ui w)) then w
             else leaderboardEffect (ui w) w).
  assert (H1 : sameGame (ui w) (ui w1)).
  { unfold w1. case_bool_decide; [reflexivity|apply leaderboardEffect_sameGame]. }
  set (w2 := if bool_decide (timerDeps prev = timerDeps (ui w)) then w1
             else timerEffect (ui w) w1).
  assert (H2 : sameGame (ui w) (ui w2)
               \/ (counting (ui w) = false /\ timer (ui w) = 0%Z
                   /\ sameGame (setGameState lost (ui w)) (ui w2))).
  { unfold w2. case_bool_decide; [by left|].
    destruct (timerEffect_cases (ui w) w1) as [E|(Hc & Ht & E)].
    - left. by etransitivity.
    - right. repeat split; try done.
      etransitivity; [|exact E]. by apply sameGame_setGameState. }
  clearbody w2. clear w1 H1.
  destruct H2 as [H2|(Hc & Ht & H2)].
  - apply sameGame_deps in H2 as [Hcat Hdeps].
    rewrite !bool_decide_eq_true_2 by done.
    by rewrite !commit_quiet.
  - pose proof (sameGame_fields _ _ H2) as F. simpl in F.
    destruct F as (_ & Fcat & Fgs & _ & _ & _ & _ & _ & Ft & Fp & _).
    rewrite (bool_decide_eq_true_2 (category (ui w) = category (ui w2))) by done.
    assert (Hq : forall m, commit m (ui w2) (timerEffect (ui w2) w2)
                           = timerEffect (ui w2) w2).
    { intros m. apply commit_quiet.
      - destruct (timerEffect_cases (ui w2) w2) as [E|(_ & _ & E)];
          apply sameGame_fields in E; simpl in E; tauto.
      - unfold timerDeps.
        destruct (timerEffect_cases (ui w2) w2) as [E|(_ & _ & E)];
          apply sameGame_fields in E; simpl in E;
          destruct E as (_ & _ & Hg & _ & _ & _ & _ & _ & Htm & Hp & _);
          rewrite <- Hg, <- Htm, <- Hp; [done|].
        by rewrite <- Fgs. }
    case_bool_decide.
    + by rewrite !commit_quiet.
    + by rewrite !Hq.
Qed.

Lemma commit_keeps (n : nat) (prev : State) (w : World) :
  sameGame (setGameState lost (ui w)) (setGameState lost (ui (commit n prev w))).
Proof.
  revert prev w. induction n as [|n IH]; intros prev w; simpl; [reflexivity|].
  etransitivity; [|apply IH].
  set (w1 := if bool_decide (category prev = category (ui w)) then w
             else leaderboardEffect (ui w) w).
  assert (H1 : sameGame (ui w) (ui w1)).
  { unfold w1. case_bool_decide; [reflexivity|apply leaderboardEffect_sameGame]. }
  clearbody w1. apply (sameGame_setGameState lost) in H1.
  etransitivity; [exact H1|].
  case_bool_decide; [reflexivity|].
  destruct (timerEffect_cases (ui w) w1) as [E|(_ & _ & E)];
    apply (sameGame_setGameState lost) in E; [exact E|].
  etransitivity; [|exact E]. by destruct (ui w1).
Qed.

(** Rendering changes nothing of the game but [gameState]. *)
Lemma render_keeps (prev : State) (w : World) :
  let s := ui w in
  let s' := ui (render prev w) in
  score s' = score s /\ currentQuestionIndex s' = currentQuestionIndex s
  /\ timer s' = timer s /\ isPaused s' = isPaused s
  /\ currentQuestions s' = currentQuestions s
  /\ showValidationMessage s' = showValidationMessage s
  /\ category s' = category s
  /\ userName s' = userName s.
Proof.
  intros s s'. pose proof (commit_keeps 3 prev w) as E.
  apply sameGame_fields in E. subst s s'. unfold render.
  destruct E as (E1 & E2 & _ & E4 & E5 & E6 & _ & _ & E9 & E10 & _ & E12).
  revert E1 E2 E4 E5 E6 E9 E10 E12.
  generalize (ui (commit 3 prev w)). intros s'. destruct s', (ui w). simpl.
  by intros -> -> -> -> -> -> -> ->.
Qed.

Lemma commit_S (n : nat) (prev : State) (w : World) :
  commit (S n) prev w
  = commit n (ui w)
      (let w1 := if bool_decide (category prev = category (ui w)) then w
                 else leaderboardEffect (ui w) w in
       if bool_decide (timerDeps prev = timerDeps (ui w)) then w1
       else timerEffect (ui w) w1).
Proof. reflexivity. Qed.

Lemma timerEffect_idle (s : State) (w : World) :
  timer s <> 0%Z -> timerEffect s w = w.
Proof.
  intros Ht. unfold timerEffect. destruct (counting s); [done|].
  by rewrite (proj2 (Z.eqb_neq _ _) Ht).
Qed.

Lemma render_idle (prev : State) (w : World) :
  category prev = category (ui w) -> timer (ui w) <> 0%Z ->
  render prev w = w.
Proof.
  intros Hc Ht. unfold render. rewrite commit_S.
  rewrite (bool_decide_eq_true_2 _ Hc). cbv zeta.
  rewrite timerEffect_idle by done.
  destruct (bool_decide _); by rewrite commit_quiet.
Qed.

(** ** The store *)

Lemma storageKey_not_probe (category : string) :
  storageKey category <> "localStorageTest".
Proof.
  unfold storageKey. intros E.
  apply (f_equal (String.get 1)) in E. vm_compute in E. discriminate E.
Qed.


Lemma handleGameOver_stored (s : State) (w : World) (m : gmap string Item) :
  localStorage w = Some m ->
  stored (handleGameOver s w) (category s)
  = Some (Array_sort byScoreDescending
            (leaderboard s ++ [LeaderboardEntry.mk (userName s) (score s)])).
Proof.
  intros Hm. unfold handleGameOver, isLocalStorageAvailable, stored.
  rewrite Hm. simpl. unfold parseStored. by rewrite lookup_insert_eq.
Qed.

Lemma handleGameOver_questionsData (s : State) (w : World) :
  questionsData (handleGameOver s w) = questionsData w.
Proof.
  unfold handleGameOver, isLocalStorageAvailable.
  by destruct (localStorage w).
Qed.


(** * The claims *)






(** C8, as the code has it.  The one handler [handlePauseResume] toggles
    [isPaused]: where the playing screen offers it, a click while paused
    resumes and a click while running pauses, so two clicks restore the
    flag.  No click changes timer, score or currentIndex.  While paused the
    interval is not installed: a tick does nothing. *)
Theorem pause_resume_toggles (w : World) :
  let w' := step w ClickPauseResume in
  (enabled ClickPauseResume w = true ->
     isPaused (ui w') = negb (isPaused (ui w)))
  /\ (enabled ClickPauseResume w = true -> timer (ui w) <> 0%Z ->
        ui (step w' ClickPauseResume) = ui w)
  /\ timer (ui w') = timer (ui w)
  /\ score (ui w') = score (ui w)
  /\ currentQuestionIndex (ui w') = currentQuestionIndex (ui w)
  /\ (isPaused (ui w) = true -> step w IntervalTick = w).
Proof.
  intros w'. subst w'.
  assert (E1 : forall v, enabled ClickPauseResume v = true ->
                 timer (ui v) <> 0%Z ->
                 step v ClickPauseResume = handlePauseResume (ui v) v).
  { intros v Hv Htv. unfold step. rewrite Hv. by apply render_idle. }
  split; [|split; [|split; [|split; [|split]]]].
  - intros He. unfold step. rewrite He.
    pose proof (render_keeps (ui w) (handle ClickPauseResume w)) as K.
    cbv zeta in K. by destruct K as (_ & _ & _ & -> & _).
  - intros He Ht. rewrite (E1 w He Ht).
    assert (He' : enabled ClickPauseResume (handlePauseResume (ui w) w) = true)
      by (rewrite <- He; by destruct w as [[] ? ? ? ? ?]).
    rewrite (E1 _ He') by done.
    destruct w as [[] ? ? ? ? ?]. simpl. unfold setIsPaused. simpl.
    by rewrite negb_involutive.
  - unfold step. destruct (enabled ClickPauseResume w); [|done].
    pose proof (render_keeps (ui w) (handle ClickPauseResume w)) as K.
    cbv zeta in K. by destruct K as (_ & _ & -> & _).
  - unfold step. destruct (enabled ClickPauseResume w); [|done].
    pose proof (render_keeps (ui w) (handle ClickPauseResume w)) as K.
    cbv zeta in K. by destruct K as (-> & _).
  - unfold step. destruct (enabled ClickPauseResume w); [|done].
    pose proof (render_keeps (ui w) (handle ClickPauseResume w)) as K.
    cbv zeta in K. by destruct K as (_ & -> & _).
  - intros Hp. unfold step, enabled, counting. rewrite Hp. simpl.
    by rewrite andb_false_r.
Qed.

Lemma pause_resume_toggles_witness :
  isPaused (ui (step Sessions.paused ClickPauseResume)) = false
  /\ timer (ui (step Sessions.paused ClickPauseResume)) = 20%Z
  /\ step Sessions.paused IntervalTick = Sessions.paused.
Proof.
  destruct (pause_resume_toggles Sessions.paused)
    as (H1 & _ & H2 & _ & _ & H5).
  split; [|split].
  - exact (H1 ltac:(vm_compute; reflexivity)).
  - exact H2.
  - exact (H5 ltac:(vm_compute; reflexivity)).
Defined.

(** C8 as stated fails on the code: a second pause while already paused
    does not leave [paused = true]; it resumes. *)
Lemma pause_while_paused_resumes :
  gameState (ui Sessions.paused) = playing
  /\ isPaused (ui Sessions.paused) = true
  /\ isPaused (ui (step Sessions.paused ClickPauseResume)) = false.
Proof. vm_compute. repeat split. Qed.

(** C1 fails on the code.  Submit stays enabled during the reveal window of
    a text question, each click schedules a callback, and each callback of a
    correct answer adds a point: a session of two questions is won with
    score 3.  With one submission per question the score is 2. *)
Theorem double_submit_wins_with_extra_point :
  gameState (ui Sessions.twiceThenWin) = won
  /\ score (ui Sessions.twiceThenWin) = 3%Z
  /\ length (currentQuestions (ui Sessions.twiceThenWin)) = 2%nat
  /\ gameState (ui Sessions.cleanWin) = won
  /\ score (ui Sessions.cleanWin) = 2%Z.
Proof. vm_compute. repeat split. Qed.

(** C2 fails on the code, by the same double submission: the session is
    lost on its second question with score 2 and currentIndex 1, before and
    after the losing callback, and score 2 is what is saved. *)
Theorem double_submit_loses_with_extra_point :
  (gameState (ui Sessions.twice) = playing
   /\ score (ui Sessions.twice) = 2%Z
   /\ currentQuestionIndex (ui Sessions.twice) = Some 1%nat)
  /\ gameState (ui Sessions.twiceThenLoss) = lost
  /\ score (ui Sessions.twiceThenLoss) = 2%Z
  /\ currentQuestionIndex (ui Sessions.twiceThenLoss) = Some 1%nat
  /\ stored Sessions.twiceThenLoss "science" = Some [Sessions.ann 2].
Proof. vm_compute. repeat split. Qed.

(** C3 fails on the code.  The callback of an answer is not cancelled when
    the countdown ends the game first: it runs in the Lost state, adds its
    point, moves the index and resets the timer; on the last question it
    turns Lost into Won. *)
Theorem late_reveal_mutates_lost_session :
  let lost2 := Sessions.lateClick Sessions.choiceBank
                 [Sessions.marsQ; Sessions.h2oQ] in
  let lost1 := Sessions.lateClick Sessions.oneBank [Sessions.marsQ] in
  (gameState (ui lost2) = lost /\ score (ui lost2) = 0%Z
   /\ currentQuestionIndex (ui lost2) = Some 0%nat /\ timer (ui lost2) = 0%Z)
  /\ (let after := step lost2 RevealTimeout in
      gameState (ui after) = lost /\ score (ui after) = 1%Z
      /\ currentQuestionIndex (ui after) = Some 1%nat
      /\ timer (ui after) = 30%Z)
  /\ gameState (ui lost1) = lost
  /\ (let after := step lost1 RevealTimeout in
      gameState (ui after) = won /\ score (ui after) = 1%Z
      /\ timer (ui after) = 30%Z).
Proof. vm_compute. repeat split. Qed.

(** C4 fails on the code.  The winning branch does not call
    [handleGameOver]: after a win the store and the leaderboard are as they
    were loaded, while the losing branch saves its entry. *)
Theorem win_is_not_persisted :
  gameState (ui Sessions.cleanWin) = won
  /\ score (ui Sessions.cleanWin) = 2%Z
  /\ stored Sessions.cleanWin "science" = Some []
  /\ leaderboard (ui Sessions.cleanWin) = []
  /\ gameState (ui Sessions.cleanLoss) = lost
  /\ stored Sessions.cleanLoss "science" = Some [Sessions.ann 1]
  /\ leaderboard (ui Sessions.cleanLoss) = [Sessions.ann 1].
Proof. vm_compute. repeat split. Qed.

(** C5 fails on the code.  The timer effect runs on the render with timer
    0, sets Lost and saves; [gameState] being one of its dependencies it
    runs again on the next render, where timer is still 0, and saves again:
    one timeout leaves two entries. *)
Theorem timeout_is_persisted_twice :
  gameState (ui Sessions.timedOut) = lost
  /\ stored Sessions.timedOut "science" = Some [Sessions.ann 0; Sessions.ann 0]
  /\ leaderboard (ui Sessions.timedOut) = [Sessions.ann 0; Sessions.ann 0].
Proof. vm_compute. repeat split. Qed.

(** C7 fails on the code for the text questions.  A second click on Submit
    during the reveal window is accepted: the world with the pending
    callbacks changes, and when they have run the score is 2 instead of 1;
    with the answer changed to a wrong one in between, the session is Lost
    instead of Playing. *)
Theorem second_submit_is_not_ignored :
  (gameState (ui Sessions.once) = playing /\ score (ui Sessions.once) = 1%Z
   /\ currentQuestionIndex (ui Sessions.once) = Some 1%nat)
  /\ (gameState (ui Sessions.twice) = playing
      /\ score (ui Sessions.twice) = 2%Z
      /\ currentQuestionIndex (ui Sessions.twice) = Some 1%nat)
  /\ (gameState (ui Sessions.changedAnswer) = lost
      /\ score (ui Sessions.changedAnswer) = 1%Z
      /\ currentQuestionIndex (ui Sessions.changedAnswer) = Some 1%nat).
Proof. vm_compute. repeat split. Qed.

(** C10 fails on the code.  [sort] orders the bank's own array: after a
    start that leaves the questions in the other order, the bank holds them
    in that order. *)
Theorem start_reorders_the_bank :
  let before := Sessions.ready in
  let after := step before (ClickStart [Sessions.pianoQ; Sessions.fourQ]) in
  questionsData before !! "science" = Some [Sessions.fourQ; Sessions.pianoQ]
  /\ questionsData after !! "science" = Some [Sessions.pianoQ; Sessions.fourQ]
  /\ currentQuestions (ui after) = [Sessions.pianoQ; Sessions.fourQ].
Proof. vm_compute. repeat split. Qed.

(** * Further properties of the transitions *)

(** Once the game is over the screen offers neither answers nor the pause
    button, the interval is not installed, and [handleAnswer] itself
    returns at its guard (line 88). *)
Theorem submit_is_ignored_when_over (w : World) (selected : string) :
  gameState (ui w) = won \/ gameState (ui w) = lost ->
  handleAnswer selected (ui w) w = w
  /\ step w (ClickOption selected) = w
  /\ step w ClickSubmit = w
  /\ step w ClickPauseResume = w
  /\ step w IntervalTick = w.
Proof.
  intros Hover. unfold step, enabled, handleAnswer, shownQuestion, counting.
  destruct Hover as [-> | ->]; simpl;
    rewrite ?andb_false_r; by repeat split.
Qed.

Lemma submit_is_ignored_when_over_witness :
  handleAnswer "Mars" (ui Sessions.timedOut) Sessions.timedOut
  = Sessions.timedOut
  /\ step Sessions.timedOut ClickSubmit = Sessions.timedOut.
Proof.
  assert (Hlost : gameState (ui Sessions.timedOut) = lost)
    by (vm_compute; reflexivity).
  destruct (submit_is_ignored_when_over Sessions.timedOut "Mars"
              (or_intror Hlost)) as (H1 & _ & H3 & _).
  split; [exact H1 | exact H3].
Defined.



(** The callback of a correct answer: one point; on the last question the
    game is won, and the score is the number of questions when every
    earlier question gave one point; on another question the index moves on
    and the timer is reset. *)
Theorem correct_answer_scores (w : World) (r : Reveal) (rest : list Reveal)
    (i : nat) :
  mounted (ui w) = true -> reveals w = r :: rest -> correct r = true ->
  currentQuestionIndex (closure r) = Some i ->
  let n := length (currentQuestions (closure r)) in
  let w' := step w RevealTimeout in
  score (ui w') = (score (ui w) + 1)%Z
  /\ timer (ui w') = 30%Z
  /\ (S i = n ->
        gameState (ui w') = won
        /\ (score (ui w) = Z.of_nat i -> score (ui w') = Z.of_nat n))
  /\ (S i <> n ->
        gameState (ui w') = gameState (ui w)
        /\ currentQuestionIndex (ui w') = Some (S i)
        /\ selectedOption (ui w') = None).
Proof.
  intros Hm Hr Hc Hi n w'.
  assert (He : enabled RevealTimeout w = true).
  { unfold enabled. rewrite Hm, Hr. done. }
  unfold w', step. rewrite He. unfold handle. rewrite Hr.
  unfold revealCallback. rewrite Hc, Hi. cbv zeta. fold n.
  case_bool_decide as Hlast.
  - rewrite render_idle by done. simpl.
    simpl in Hlast. injection Hlast as Hl.
    split; [done|]. split; [done|]. split.
    + intros _. split; [done|]. intros Hs. lia.
    + intros Hn. lia.
  - rewrite render_idle by done. simpl.
    split; [done|]. split; [done|]. split; [|done].
    intros Hl. exfalso. apply Hlast. simpl. f_equal. lia.
Qed.

Lemma correct_answer_scores_witness :
  let w := run (Sessions.begin [Sessions.fourQ; Sessions.pianoQ]
                ++ Sessions.submit "four" ++ [RevealTimeout]
                ++ Sessions.submit "Piano")
             (load Sessions.emptyStore Sessions.textBank) in
  gameState (ui (step w RevealTimeout)) = won
  /\ score (ui (step w RevealTimeout)) = 2%Z.
Proof.
  intros w.
  destruct (correct_answer_scores w
              (mkReveal true (setSelectedOption None (ui w))) [] 1
              ltac:(vm_compute; reflexivity) ltac:(vm_compute; reflexivity)
              eq_refl ltac:(vm_compute; reflexivity)) as (_ & _ & Hwin & _).
  destruct (Hwin ltac:(vm_compute; reflexivity)) as (Hw & Hs).
  split; [exact Hw|].
  exact (Hs ltac:(vm_compute; reflexivity)).
Defined.

(** ** What holds on every start screen the user interface can reach *)

Lemma handleGameOver_pending (s : State) (w : World) :
  reveals (handleGameOver s w) = reveals w
  /\ hints (handleGameOver s w) = hints w.
Proof.
  unfold handleGameOver, isLocalStorageAvailable.
  by destruct (localStorage w).
Qed.

Lemma leaderboardEffect_pending (s : State) (w : World) :
  reveals (leaderboardEffect s w) = reveals w
  /\ hints (leaderboardEffect s w) = hints w
  /\ questionsData (leaderboardEffect s w) = questionsData w.
Proof.
  unfold leaderboardEffect, isLocalStorageAvailable.
  destruct (_ && _); [|done].
  destruct (localStorage w) as [m|]; simpl; [|done].
  by destruct (parseStored _ _).
Qed.

Lemma timerEffect_pending (s : State) (w : World) :
  reveals (timerEffect s w) = reveals w
  /\ hints (timerEffect s w) = hints w
  /\ questionsData (timerEffect s w) = questionsData w.
Proof.
  unfold timerEffect.
  destruct (counting s); [done|]. destruct (timer s =? 0)%Z; [|done].
  rewrite handleGameOver_questionsData.
  by destruct (handleGameOver_pending s (onUi (setGameState lost) w)) as [-> ->].
Qed.

Lemma commit_pending (n : nat) (prev : State) (w : World) :
  reveals (commit n prev w) = reveals w
  /\ hints (commit n prev w) = hints w
  /\ questionsData (commit n prev w) = questionsData w.
Proof.
  revert prev w. induction n as [|n IH]; intros prev w; [done|].
  rewrite commit_S. cbv zeta.
  destruct (IH (ui w)
    (if bool_decide (timerDeps prev = timerDeps (ui w))
     then if bool_decide (category prev = category (ui w)) then w
          else leaderboardEffect (ui w) w
     else timerEffect (ui w)
            (if bool_decide (category prev = category (ui w)) then w
             else leaderboardEffect (ui w) w))) as (-> & -> & ->).
  pose proof (leaderboardEffect_pending (ui w) w) as (L1 & L2 & L3).
  destruct (bool_decide (timerDeps prev = timerDeps (ui w))),
    (bool_decide (category prev = category (ui w)));
    rewrite ?(proj1 (timerEffect_pending _ _)),
      ?(proj1 (proj2 (timerEffect_pending _ _))),
      ?(proj2 (proj2 (timerEffect_pending _ _))); done.
Qed.

(** No render and no handler brings the start screen back. *)
Lemma commit_gameState (n : nat) (prev : State) (w : World) :
  gameState (ui (commit n prev w)) = start -> gameState (ui w) = start.
Proof.
  revert prev w. induction n as [|n IH]; intros prev w; [done|].
  rewrite commit_S. cbv zeta. intros Hs. apply IH in Hs. revert Hs.
  set (w1 := if bool_decide (category prev = category (ui w)) then w
             else leaderboardEffect (ui w) w).
  assert (H1 : sameGame (ui w) (ui w1)).
  { unfold w1. case_bool_decide; [reflexivity|apply leaderboardEffect_sameGame]. }
  apply sameGame_fields in H1. destruct H1 as (_ & _ & H1 & _).
  case_bool_decide; [by rewrite H1|].
  destruct (timerEffect_cases (ui w) w1) as [E|(_ & _ & E)];
    apply sameGame_fields in E; simpl in E;
    destruct E as (_ & _ & <- & _); [by rewrite H1|done].
Qed.

Lemma handleGameOver_gameState (s : State) (w : World) :
  gameState (ui (handleGameOver s w)) = gameState (ui w).
Proof.
  pose proof (handleGameOver_sameGame s w) as E.
  apply sameGame_fields in E. by destruct E as (_ & _ & <- & _).
Qed.

Lemma handleAnswer_ui (selected : string) (s : State) (w : World) :
  handleAnswer selected s w = w
  \/ exists c, handleAnswer selected s w
               = withReveals (reveals w ++ [mkReveal c s])
                   (onUi (setSelectedOption (Some selected)) w).
Proof.
  unfold handleAnswer.
  destruct (gameState s), (currentQuestionIndex s); try by left.
  destruct (_ !! _); [right; by eexists|by left].
Qed.

Lemma handle_gameState (e : Event) (w : World) :
  gameState (ui (handle e w)) = start -> gameState (ui w) = start.
Proof.
  destruct e; unfold handle; try done.
  - unfold handleStart. destruct (_ || _); [done|].
    by destruct (questionsData w !! _).
  - by destruct (handleAnswer_ui option (ui w) w) as [->|[c ->]].
  - by destruct (handleAnswer_ui (userAnswer (ui w)) (ui w) w) as [->|[c ->]].
  - destruct (reveals w) as [|r rest]; [done|].
    unfold revealCallback. destruct (correct r); simpl.
    + by case_bool_decide.
    + by rewrite handleGameOver_gameState.
Qed.

Lemma handle_category (e : Event) (w : World) :
  enabled e w = true ->
  category (ui w) = "" \/ is_Some (questionsData w !! category (ui w)) ->
  category (ui (handle e w)) = ""
  \/ is_Some (questionsData (handle e w) !! category (ui (handle e w))).
Proof.
  intros He Hc. destruct e; unfold handle; try done.
  - unfold enabled in He. simpl.
    apply andb_true_iff in He as [_ He]. apply andb_true_iff in He as [_ He].
    apply orb_true_iff in He as [He|He].
    + left. by apply String.eqb_eq.
    + right. by apply bool_decide_eq_true in He.
  - unfold handleStart. destruct (_ || _); [done|].
    destruct (questionsData w !! category (ui w)) eqn:Hq.
    + right. simpl. rewrite lookup_insert_eq. by eexists.
    + destruct Hc as [Hc|[qs Hc]]; [by left|done].
  - by destruct (handleAnswer_ui option (ui w) w) as [->|[c ->]].
  - by destruct (handleAnswer_ui (userAnswer (ui w)) (ui w) w) as [->|[c ->]].
  - destruct (reveals w) as [|r rest]; [done|].
    unfold revealCallback. destruct (correct r); simpl.
    + by case_bool_decide.
    + rewrite handleGameOver_questionsData.
      pose proof (handleGameOver_sameGame (closure r)
                    (onUi (setGameState lost) (withReveals rest w))) as E.
      apply sameGame_fields in E. destruct E as (_ & E & _).
      simpl in E. by rewrite <- E.
Qed.

Lemma handle_start_screen (e : Event) (w : World) :
  enabled e w = true -> gameState (ui w) = start -> reveals w = [] ->
  gameState (ui (handle e w)) = start ->
  isPaused (ui (handle e w)) = isPaused (ui w)
  /\ score (ui (handle e w)) = score (ui w)
  /\ timer (ui (handle e w)) = timer (ui w)
  /\ currentQuestionIndex (ui (handle e w)) = currentQuestionIndex (ui w)
  /\ reveals (handle e w) = [].
Proof.
  intros He Hs Hr.
  destruct e; unfold enabled, shownQuestion, counting in He;
    rewrite ?Hs, ?Hr in He; simpl in He; rewrite ?andb_false_r in He;
    try discriminate He; unfold handle; try done.
  unfold handleStart. destruct (_ || _); [done|].
  by destruct (questionsData w !! _).
Qed.

Lemma step_startInvariant (w : World) (e : Event) :
  startInvariant w -> startInvariant (step w e).
Proof.
  intros [Hc Hs]. unfold step. destruct (enabled e w) eqn:He; [|done].
  pose proof (render_keeps (ui w) (handle e w)) as K. cbv zeta in K.
  destruct K as (_ & _ & _ & _ & _ & _ & Kc & _).
  pose proof (commit_pending 3 (ui w) (handle e w)) as (Pr & _ & Pq).
  fold (render (ui w) (handle e w)) in Pr, Pq.
  split.
  - rewrite Pq, Kc. by apply handle_category.
  - intros Hstart. apply commit_gameState in Hstart.
    pose proof (handle_gameState e w Hstart) as Hw.
    destruct (Hs Hw) as (I1 & I2 & I3 & I4 & I5).
    destruct (handle_start_screen e w He Hw I5 Hstart)
      as (J1 & J2 & J3 & J4 & J5).
    pose proof (render_keeps (ui w) (handle e w)) as R. cbv zeta in R.
    destruct R as (-> & -> & -> & -> & _).
    by rewrite Pr, J1, J2, J3, J4, J5.
Qed.

Lemma run_snoc (es : list Event) (e : Event) (w : World) :
  run (es ++ [e]) w = step (run es w) e.
Proof. unfold run. by rewrite fold_left_app. Qed.

(** On every start screen the user interface can reach, the category is
    the empty choice or a key of the bank, the game is not paused and no
    session exists: the select offers the keys of the bank only, the pause
    button belongs to the playing screen, and nothing leads back to the
    start screen. *)
Theorem reachable_start_screen (store : option (gmap string Item))
    (bank : gmap string (list Question)) (w : World) :
  reachable store bank w -> startInvariant w.
Proof.
  intros [es ->]. induction es as [|e es IH] using rev_ind.
  - split; [by left|]. by intros _.
  - rewrite run_snoc. by apply step_startInvariant.
Qed.

Lemma reachable_start_screen_witness : startInvariant Sessions.ready.
Proof.
  apply (reachable_start_screen Sessions.emptyStore Sessions.textBank).
  by exists [ChangeUserName "Ann"; ChangeCategory "science"].
Defined.

(** The callback of a wrong answer saves the result when the store is
    available: the leaderboard of the render that took the answer, with the
    player's entry, sorted, is what the store then holds for the category
    and what the screen shows. *)
Theorem wrong_answer_is_persisted (w : World) (r : Reveal)
    (rest : list Reveal) (m : gmap string Item) :
  mounted (ui w) = true -> reveals w = r :: rest -> correct r = false ->
  localStorage w = Some m ->
  let s := closure r in
  let saved :=
    Array_sort byScoreDescending
      (leaderboard s ++ [LeaderboardEntry.mk (userName s) (score s)]) in
  let w' := step w RevealTimeout in
  stored w' (category s) = Some saved /\ leaderboard (ui w') = saved.
Proof.
  intros Hm Hr Hc Hst s saved w'.
  assert (He : enabled RevealTimeout w = true).
  { unfold enabled. rewrite Hm, Hr. done. }
  unfold w', step. rewrite He. unfold handle. rewrite Hr.
  unfold revealCallback. rewrite Hc. cbv zeta. fold s.
  set (w0 := onUi (setGameState lost) (withReveals rest w)).
  assert (H0 : localStorage w0 = Some m) by done.
  pose proof (handleGameOver_stored s w0 m H0) as Hs. fold saved in Hs.
  assert (Hl : leaderboard (ui (handleGameOver s w0)) = saved).
  { unfold handleGameOver, isLocalStorageAvailable. by rewrite H0. }
  pose proof (handleGameOver_sameGame s w0) as E.
  apply sameGame_fields in E. destruct E as (_ & Ecat & _).
  rewrite render_idle; [|simpl; by rewrite <- Ecat|done].
  split; [exact Hs|exact Hl].
Qed.

Lemma wrong_answer_is_persisted_witness :
  let w := run (Sessions.begin [Sessions.fourQ; Sessions.pianoQ]
                ++ Sessions.submit "four" ++ [RevealTimeout]
                ++ Sessions.submit "drum")
             (load Sessions.emptyStore Sessions.textBank) in
  stored (step w RevealTimeout) "science" = Some [Sessions.ann 1].
Proof.
  intros w.
  assert (Hm : localStorage w
               = Some (delete "localStorageTest"
                         (<["localStorageTest" := Text "localStorageTest"]> ∅)))
    by (vm_compute; reflexivity).
  destruct (wrong_answer_is_persisted w
              (mkReveal false (setSelectedOption None (ui w))) [] _
              ltac:(vm_compute; reflexivity) ltac:(vm_compute; reflexivity)
              eq_refl Hm) as (H & _).
  exact H.
Defined.

(** * The rest of the component *)

(** ** The store, item by item *)

Lemma append_inj_l (p a b : string) : p ++ a = p ++ b -> a = b.
Proof.
  induction p as [|c p IH]; [done|].
  intros E. apply IH. change (String c (p ++ a) = String c (p ++ b)) in E.
  by injection E.
Qed.

Lemma storageKey_inj (c c' : string) : storageKey c = storageKey c' -> c = c'.
Proof. apply append_inj_l. Qed.

(** Saving a result writes the item of its own category and nothing else
    of the player's: the leaderboard of every other category reads as
    before, every other item is as before, except that the probe of
    [isLocalStorageAvailable] has removed the item [localStorageTest]; the
    saved list is one entry longer than the leaderboard it was made from. *)
Theorem game_over_writes_one_item (s : State) (w : World)
    (m : gmap string Item) :
  localStorage w = Some m ->
  exists m' saved,
    localStorage (handleGameOver s w) = Some m'
    /\ m' !! storageKey (category s) = Some (Json saved)
    /\ length saved = S (length (leaderboard s))
    /\ m' !! "localStorageTest" = None
    /\ (forall k, k <> storageKey (category s) -> k <> "localStorageTest" ->
          m' !! k = m !! k)
    /\ (forall c, c <> category s ->
          stored (handleGameOver s w) c = stored w c).
Proof.
  intros Hm. unfold handleGameOver, isLocalStorageAvailable, stored.
  rewrite Hm. simpl. eexists _, _. split; [reflexivity|].
  split; [by rewrite lookup_insert_eq|].
  split; [by rewrite Array_sort_perm, length_app, Nat.add_1_r|].
  split.
  - rewrite lookup_insert_ne by apply storageKey_not_probe.
    by rewrite lookup_delete_eq.
  - split.
    + intros k Hk Ht.
      by rewrite lookup_insert_ne, lookup_delete_ne, lookup_insert_ne.
    + intros c Hc. unfold parseStored.
      rewrite lookup_insert_ne by (intros E; by apply storageKey_inj in E).
      rewrite lookup_delete_ne, lookup_insert_ne;
        [done| |]; intros E; by apply (storageKey_not_probe c).
Qed.

Lemma game_over_writes_one_item_witness :
  let s := setLeaderboard [Sessions.ann 1]
             (setCategory "science" (setUserName "Bea" initialState)) in
  let w := mkWorld initialState
             (Some {[ "leaderboard_history" := Json [Sessions.ann 7];
                      "localStorageTest" := Text "mine" ]})
             Sessions.textBank [] 0 [] in
  stored (handleGameOver s w) "history" = Some [Sessions.ann 7]
  /\ stored (handleGameOver s w) "science"
     = Some [Sessions.ann 1; LeaderboardEntry.mk "Bea" 0].
Proof.
  intros s w.
  destruct (game_over_writes_one_item s w _ eq_refl)
    as (m' & saved & _ & _ & _ & _ & _ & H).
  split; [|vm_compute; reflexivity].
  rewrite (H "history") by discriminate. vm_compute. reflexivity.
Defined.

(** ** Selecting a category *)







(** ** The order of the game states *)

(** A render changes [gameState] only to end the game on a timer of 0. *)
Lemma commit_ends_or_keeps (n : nat) (prev : State) (w : World) :
  gameState (ui (commit n prev w)) = gameState (ui w)
  \/ (gameState (ui (commit n prev w)) = lost /\ timer (ui w) = 0%Z).
Proof.
  revert prev w. induction n as [|n IH]; intros prev w; [by left|].
  rewrite commit_S. cbv zeta.
  set (w1 := if bool_decide (category prev = category (ui w)) then w
             else leaderboardEffect (ui w) w).
  assert (H1 : sameGame (ui w) (ui w1)).
  { unfold w1. case_bool_decide; [reflexivity|apply leaderboardEffect_sameGame]. }
  apply sameGame_fields in H1.
  destruct H1 as (_ & _ & H1 & _ & _ & _ & _ & _ & T1 & _).
  set (w2 := if bool_decide (timerDeps prev = timerDeps (ui w)) then w1
             else timerEffect (ui w) w1).
  assert (H2 : (gameState (ui w2) = gameState (ui w)
                \/ (gameState (ui w2) = lost /\ timer (ui w) = 0%Z))
               /\ timer (ui w2) = timer (ui w)).
  { unfold w2. case_bool_decide; [split; [left|]; congruence|].
    destruct (timerEffect_cases (ui w) w1) as [E|(_ & Ht & E)];
      apply sameGame_fields in E; simpl in E;
      destruct E as (_ & _ & Eg & _ & _ & _ & _ & _ & Et & _).
    - split; [left|]; congruence.
    - split; [right; by split|congruence]. }
  clearbody w2. destruct H2 as [H2 T2].
  destruct (IH (ui w) w2) as [E|[E Ht]].
  - rewrite E. exact H2.
  - right. split; [done|congruence].
Qed.

Lemma revealCallback_frame (r : Reveal) (w : World) :
  let w' := revealCallback r w in
  userName (ui w') = userName (ui w) /\ category (ui w') = category (ui w)
  /\ currentQuestions (ui w') = currentQuestions (ui w)
  /\ isPaused (ui w') = isPaused (ui w) /\ showHint (ui w') = showHint (ui w)
  /\ timer (ui w') = 30%Z
  /\ questionsData w' = questionsData w /\ reveals w' = reveals w
  /\ hints w' = hints w.
Proof.
  unfold revealCallback. destruct (correct r); cbv zeta.
  - case_bool_decide; by repeat split.
  - set (w0 := onUi (setGameState lost) w).
    pose proof (handleGameOver_sameGame (closure r) w0) as E.
    apply sameGame_fields in E.
    destruct E as (E1 & E2 & _ & E4 & _ & _ & _ & _ & _ & E10 & E11 & _).
    destruct (handleGameOver_pending (closure r) w0) as [P1 P2].
    pose proof (handleGameOver_questionsData (closure r) w0) as P3.
    simpl. rewrite <- E1, <- E2, <- E4, <- E10, <- E11, P1, P2, P3.
    by repeat split.
Qed.

Lemma revealCallback_gameState (r : Reveal) (w : World) :
  gameState (ui (revealCallback r w)) = won
  \/ gameState (ui (revealCallback r w)) = lost
  \/ gameState (ui (revealCallback r w)) = gameState (ui w).
Proof.
  unfold revealCallback. destruct (correct r); cbv zeta.
  - case_bool_decide; [by left|by right; right].
  - right; left. simpl. by rewrite handleGameOver_gameState.
Qed.

Lemma enabled_start_only (e : Event) (w : World) :
  enabled e w = true ->
  match e with
  | ChangeUserName _ | ChangeCategory _ | ClickStart _ =>
      gameState (ui w) = start
  | ClickOption _ | ChangeUserAnswer _ | ClickSubmit | ClickPauseResume
  | ClickHint | IntervalTick => gameState (ui w) = playing
  | RevealTimeout | HintTimeout => True
  end.
Proof.
  unfold enabled, shownQuestion, counting.
  destruct (mounted (ui w)); [|done]. simpl.
  destruct e; try done;
    destruct (gameState (ui w)); simpl; rewrite ?andb_false_r; try done.
Qed.

Lemma handle_session_fixed (e : Event) (w : World) :
  enabled e w = true -> gameState (ui w) <> start ->
  userName (ui (handle e w)) = userName (ui w)
  /\ category (ui (handle e w)) = category (ui w)
  /\ currentQuestions (ui (handle e w)) = currentQuestions (ui w)
  /\ questionsData (handle e w) = questionsData w.
Proof.
  intros He Hs. pose proof (enabled_start_only e w He) as Hg.
  destruct e; try done; unfold handle.
  - by destruct (handleAnswer_ui option (ui w) w) as [->|[c ->]].
  - by destruct (handleAnswer_ui (userAnswer (ui w)) (ui w) w) as [->|[c ->]].
  - destruct (reveals w) as [|r rest]; [done|].
    pose proof (revealCallback_frame r (withReveals rest w)) as F.
    cbv zeta in F. by destruct F as (-> & -> & -> & _ & _ & _ & -> & _).
Qed.

(** The game only moves forward: once a session has started, no event
    brings back the start screen or changes the player's name, the
    category, the order of the questions or the bank; once the game is won
    or lost, no event makes it playing again. *)
Theorem game_only_moves_forward (w : World) (e : Event) :
  let w' := step w e in
  (gameState (ui w) <> start ->
     gameState (ui w') <> start
     /\ userName (ui w') = userName (ui w)
     /\ category (ui w') = category (ui w)
     /\ currentQuestions (ui w') = currentQuestions (ui w)
     /\ questionsData w' = questionsData w)
  /\ (gameState (ui w) = won \/ gameState (ui w) = lost ->
        gameState (ui w') = won \/ gameState (ui w') = lost).
Proof.
  intros w'. subst w'. unfold step.
  destruct (enabled e w) eqn:He; [|by split].
  pose proof (render_keeps (ui w) (handle e w)) as K. cbv zeta in K.
  destruct K as (_ & _ & _ & _ & K5 & _ & K7 & K8).
  destruct (commit_pending 3 (ui w) (handle e w)) as (_ & _ & Pq).
  fold (render (ui w) (handle e w)) in Pq.
  split.
  - intros Hs.
    destruct (handle_session_fixed e w He Hs) as (F1 & F2 & F3 & F4).
    split; [|by rewrite K5, K7, K8, Pq].
    intros E. apply commit_gameState, handle_gameState in E. done.
  - intros Hover.
    assert (Hh : gameState (ui (handle e w)) = won
                 \/ gameState (ui (handle e w)) = lost).
    { pose proof (enabled_start_only e w He) as Hg.
      destruct e; try (destruct Hover; congruence); unfold handle.
      - destruct (reveals w) as [|r rest]; [done|].
        destruct (revealCallback_gameState r (withReveals rest w))
          as [E|[E|E]]; [by left|by right|]. by rewrite E.
      - done. }
    destruct (commit_ends_or_keeps 3 (ui w) (handle e w)) as [E|[E _]].
    + unfold render. by rewrite E.
    + by right.
Qed.

Lemma game_only_moves_forward_witness :
  let w := Sessions.lateClick Sessions.oneBank [Sessions.marsQ] in
  gameState (ui (step w RevealTimeout)) <> start
  /\ userName (ui (step w RevealTimeout)) = "Ann"
  /\ (gameState (ui (step w RevealTimeout)) = won
      \/ gameState (ui (step w RevealTimeout)) = lost).
Proof.
  intros w.
  destruct (game_only_moves_forward w RevealTimeout) as [H1 H2].
  destruct (H1 ltac:(vm_compute; discriminate)) as (G & N & _).
  split; [exact G|]. split.
  - transitivity (userName (ui w)); [exact N|vm_compute; reflexivity].
  - apply H2. right. vm_compute. reflexivity.
Defined.

(** ** Answers *)









(** ** The countdown *)

Lemma tick_counts_down (w : World) :
  mounted (ui w) = true -> gameState (ui w) = playing ->
  isPaused (ui w) = false -> (1 < timer (ui w))%Z ->
  step w IntervalTick = intervalCallback w.
Proof.
  intros Hm Hg Hp Ht. unfold step, enabled, counting.
  rewrite Hm, Hg, Hp.
  rewrite (proj2 (Z.ltb_lt 0 (timer (ui w)))) by lia.
  simpl. apply render_idle; simpl; [done|lia].
Qed.

Lemma run_ticks_S (n : nat) (w : World) :
  run (repeat IntervalTick (S n)) w
  = step (run (repeat IntervalTick n) w) IntervalTick.
Proof.
  change (repeat IntervalTick (S n)) with (IntervalTick :: repeat IntervalTick n).
  by rewrite repeat_cons, run_snoc.
Qed.

Lemma countdown_steps (n : nat) (w : World) :
  mounted (ui w) = true -> gameState (ui w) = playing ->
  isPaused (ui w) = false -> (Z.of_nat n < timer (ui w))%Z ->
  run (repeat IntervalTick n) w
  = onUi (setTimer (fun t => (t - Z.of_nat n)%Z)) w.
Proof.
  intros Hm Hg Hp. induction n as [|n IH]; intros Ht.
  - destruct w as [[] ? ? ? ? ?]. unfold onUi, setTimer. simpl.
    by rewrite Z.sub_0_r.
  - rewrite run_ticks_S, IH by lia.
    rewrite tick_counts_down; simpl; [|done|done|done|lia].
    destruct w as [[] ? ? ? ? ?]. unfold intervalCallback, onUi, setTimer.
    simpl. do 2 f_equal. lia.
Qed.

(** A question left unanswered: while the game runs unpaused, each tick of
    the interval takes one second off the timer and changes nothing else;
    the tick that brings the timer to 0 ends the game as lost, with score
    and index as they were, and after it the interval is gone. *)
Theorem countdown_runs_out (w : World) (n : nat) :
  mounted (ui w) = true -> gameState (ui w) = playing ->
  isPaused (ui w) = false ->
  let w' := run (repeat IntervalTick n) w in
  ((Z.of_nat n < timer (ui w))%Z ->
     w' = onUi (setTimer (fun t => (t - Z.of_nat n)%Z)) w)
  /\ ((0 < timer (ui w))%Z -> Z.of_nat n = timer (ui w) ->
        gameState (ui w') = lost /\ timer (ui w') = 0%Z
        /\ score (ui w') = score (ui w)
        /\ currentQuestionIndex (ui w') = currentQuestionIndex (ui w)
        /\ step w' IntervalTick = w').
Proof.
  intros Hm Hg Hp w'. subst w'. split; [by apply countdown_steps|].
  intros Hpos Hn. destruct n as [|n]; [simpl in Hn; lia|].
  rewrite run_ticks_S, countdown_steps by (try done; lia).
  set (w1 := onUi _ w).
  assert (Ht1 : timer (ui w1) = 1%Z) by (simpl; lia).
  assert (He : enabled IntervalTick w1 = true).
  { unfold enabled, counting.
    change (mounted (ui w1)) with (mounted (ui w)).
    change (isPaused (ui w1)) with (isPaused (ui w)).
    change (gameState (ui w1)) with (gameState (ui w)).
    by rewrite Hm, Hg, Hp, Ht1. }
  set (h := intervalCallback w1).
  assert (Hstep : step w1 IntervalTick = render (ui w1) h)
    by (unfold step; by rewrite He).
  rewrite !Hstep.
  assert (Ht0 : timer (ui h) = 0%Z) by (simpl in *; lia).
  pose proof (render_keeps (ui w1) h) as K. cbv zeta in K.
  destruct K as (K1 & K2 & K3 & _).
  assert (Hl : gameState (ui (render (ui w1) h)) = lost).
  { unfold render. rewrite commit_S.
    rewrite (bool_decide_eq_true_2 (category (ui w1) = category (ui h)))
      by done.
    rewrite (bool_decide_eq_false_2 (timerDeps (ui w1) = timerDeps (ui h)))
      by (unfold timerDeps; rewrite Ht1, Ht0; intros E; by injection E).
    cbv zeta.
    assert (Hc : counting (ui h) = false)
      by (unfold counting; rewrite Ht0; by rewrite andb_false_r).
    unfold timerEffect. rewrite Hc, Ht0. change (0 =? 0)%Z with true.
    cbv iota.
    set (g := handleGameOver _ _).
    assert (Hg' : gameState (ui g) = lost)
      by (unfold g; by rewrite handleGameOver_gameState).
    destruct (commit_ends_or_keeps 2 (ui h) g) as [E|[E _]]; congruence. }
  split; [exact Hl|]. split; [by rewrite K3|].
  split; [by rewrite K1|]. split; [by rewrite K2|].
  unfold step, enabled, counting. rewrite Hl. simpl.
  by rewrite !andb_false_r.
Qed.

Lemma countdown_runs_out_witness :
  let w := run (Sessions.begin [Sessions.fourQ; Sessions.pianoQ])
             (load Sessions.emptyStore Sessions.textBank) in
  timer (ui (run (repeat IntervalTick 12) w)) = 18%Z
  /\ gameState (ui (run (repeat IntervalTick 30) w)) = lost.
Proof.
  intros w. split.
  - destruct (countdown_runs_out w 12 ltac:(vm_compute; reflexivity)
                ltac:(vm_compute; reflexivity) ltac:(vm_compute; reflexivity))
      as [H _].
    rewrite H by (vm_compute; reflexivity). vm_compute. reflexivity.
  - destruct (countdown_runs_out w 30 ltac:(vm_compute; reflexivity)
                ltac:(vm_compute; reflexivity) ltac:(vm_compute; reflexivity))
      as [_ H].
    destruct (H ltac:(vm_compute; reflexivity) ltac:(vm_compute; reflexivity))
      as (G & _).
    exact G.
Defined.

(** ** The invariant of the sessions *)

Lemma sameGame_lost_fields (s s' : State) :
  sameGame (setGameState lost s) (setGameState lost s') ->
  userName s' = userName s /\ category s' = category s
  /\ currentQuestions s' = currentQuestions s
  /\ currentQuestionIndex s' = currentQuestionIndex s
  /\ score s' = score s /\ selectedOption s' = selectedOption s
  /\ userAnswer s' = userAnswer s /\ timer s' = timer s
  /\ isPaused s' = isPaused s /\ showHint s' = showHint s
  /\ showValidationMessage s' = showValidationMessage s.
Proof.
  intros E. apply sameGame_fields in E. destruct s, s'. simpl in E.
  destruct E as (-> & -> & _ & -> & -> & -> & -> & -> & -> & -> & -> & ->).
  by repeat split.
Qed.

Lemma render_sessionInvariant (bank : gmap string (list Question))
    (prev : State) (h : World) :
  sessionInvariant bank h -> sessionInvariant bank (render prev h).
Proof.
  intros [Is Ib Ig Ic It Isc Ih].
  pose proof (sameGame_lost_fields _ _ (commit_keeps 3 prev h)) as F.
  destruct (commit_pending 3 prev h) as (Pr & Ph & Pq).
  pose proof (commit_ends_or_keeps 3 prev h) as G.
  pose proof (commit_gameState 3 prev h) as G0.
  unfold render. revert F Pr Ph Pq G G0.
  generalize (commit 3 prev h). intros w'.
  intros (F1 & F2 & F3 & F4 & F5 & F6 & F7 & F8 & F9 & F10 & F11)
    Pr Ph Pq G G0.
  assert (Hns : gameState (ui w') <> start -> gameState (ui h) <> start).
  { intros Hn Hs. destruct G as [G|[_ G]]; [congruence|].
    destruct Is as [_ Is]. destruct (Is Hs) as (_ & _ & Ht & _). lia. }
  constructor.
  - destruct Is as [Is1 Is2]. split.
    + by rewrite F2, Pq.
    + intros Hs. specialize (Is2 (G0 Hs)).
      by rewrite F9, F5, F8, F4, Pr.
  - unfold sameBank. by rewrite Pq.
  - intros Hn. specialize (Ig (Hns Hn)). by rewrite F1, F2, F3, F4.
  - rewrite Pr. eapply Forall_impl; [exact Ic|].
    intros r. unfold closureOk. by rewrite F1, F2, F3, F5.
  - by rewrite F8.
  - by rewrite F5.
  - by rewrite Ph, F10.
Qed.

Lemma closureOk_frame (w h : World) (r : Reveal) :
  userName (ui h) = userName (ui w) -> category (ui h) = category (ui w) ->
  currentQuestions (ui h) = currentQuestions (ui w) ->
  (score (ui w) <= score (ui h))%Z ->
  closureOk w r -> closureOk h r.
Proof.
  intros E1 E2 E3 E4 (C1 & C2 & C3 & C4 & C5 & C6). unfold closureOk.
  rewrite E1, E2, E3. repeat split; try done. lia.
Qed.

Lemma sessionInvariant_frame (bank : gmap string (list Question))
    (w h : World) :
  sessionInvariant bank w ->
  userName (ui h) = userName (ui w) -> category (ui h) = category (ui w) ->
  gameState (ui h) = gameState (ui w) ->
  currentQuestions (ui h) = currentQuestions (ui w) ->
  currentQuestionIndex (ui h) = currentQuestionIndex (ui w) ->
  score (ui h) = score (ui w) -> timer (ui h) = timer (ui w) ->
  isPaused (ui h) = isPaused (ui w) -> showHint (ui h) = showHint (ui w) ->
  questionsData h = questionsData w -> reveals h = reveals w ->
  hints h = hints w ->
  sessionInvariant bank h.
Proof.
  intros [[Is1 Is2] Ib Ig Ic It Isc Ih] E1 E2 E3 E4 E5 E6 E7 E8 E9 E10 E11 E12.
  constructor.
  - split; rewrite ?E2, ?E3, ?E5, ?E6, ?E7, ?E8, ?E10, ?E11; done.
  - unfold sameBank. by rewrite E10.
  - by rewrite E1, E2, E3, E4, E5.
  - rewrite E11. eapply Forall_impl; [exact Ic|].
    intros r. apply closureOk_frame; try done. lia.
  - by rewrite E7.
  - by rewrite E6.
  - by rewrite E12, E9.
Qed.

(** On the start screen nothing is pending, so what changes there need not
    care for the session. *)
Lemma sessionInvariant_start (bank : gmap string (list Question))
    (w h : World) :
  sessionInvariant bank w -> gameState (ui w) = start ->
  gameState (ui h) = start ->
  category (ui h) = "" \/ is_Some (questionsData h !! category (ui h)) ->
  score (ui h) = score (ui w) -> timer (ui h) = timer (ui w) ->
  currentQuestionIndex (ui h) = currentQuestionIndex (ui w) ->
  isPaused (ui h) = isPaused (ui w) -> showHint (ui h) = showHint (ui w) ->
  questionsData h = questionsData w -> reveals h = reveals w ->
  hints h = hints w ->
  sessionInvariant bank h.
Proof.
  intros [[Is1 Is2] Ib Ig Ic It Isc Ih] Hs Hs' Hc E6 E7 E5 E8 E9 E10 E11 E12.
  destruct (Is2 Hs) as (J1 & J2 & J3 & J4 & J5).
  constructor.
  - split; [done|]. intros _. by rewrite E8, E6, E7, E5, E11.
  - unfold sameBank. by rewrite E10.
  - done.
  - rewrite E11, J5. constructor.
  - by rewrite E7.
  - by rewrite E6.
  - by rewrite E12, E9.
Qed.

Lemma handleAnswer_cases (selected : string) (s : State) (w : World) :
  handleAnswer selected s w = w
  \/ exists c i q,
       gameState s = playing /\ currentQuestionIndex s = Some i
       /\ currentQuestions s !! i = Some q
       /\ handleAnswer selected s w
          = withReveals (reveals w ++ [mkReveal c s])
              (onUi (setSelectedOption (Some selected)) w).
Proof.
  unfold handleAnswer.
  destruct (gameState s) eqn:Hg, (currentQuestionIndex s) as [i|] eqn:Hi;
    try by left.
  destruct (_ !! _) as [q|] eqn:Hq; [|by left].
  right. by eexists _, i, q.
Qed.

Lemma handleAnswer_sessionInvariant (bank : gmap string (list Question))
    (selected : string) (w : World) :
  sessionInvariant bank w ->
  sessionInvariant bank (handleAnswer selected (ui w) w).
Proof.
  intros I.
  destruct (handleAnswer_cases selected (ui w) w)
    as [->|(c & i & q & Hg & Hi & Hq & ->)]; [done|].
  pose proof I as [[Is1 Is2] Ib Ig Ic It Isc Ih].
  constructor; try done.
  - split; [done|]. simpl. intros Hs. congruence.
  - simpl. apply Forall_app. split.
    + eapply Forall_impl; [exact Ic|]. intros r.
      by apply closureOk_frame.
    + constructor; [|constructor]. unfold closureOk. simpl.
      repeat split; try done. exists i. split; [done|].
      by apply lookup_lt_Some in Hq.
Qed.

Lemma handleStart_sessionInvariant (bank : gmap string (list Question))
    (shuffled : list Question) (w : World) :
  sessionInvariant bank w -> enabled (ClickStart shuffled) w = true ->
  sessionInvariant bank (handleStart shuffled (ui w) w).
Proof.
  intros I He.
  assert (Hs : gameState (ui w) = start) by apply (enabled_start_only _ _ He).
  assert (Hp : forall qs, questionsData w !! category (ui w) = Some qs ->
                          shuffled ≡ₚ qs).
  { intros qs Hq. unfold enabled in He. rewrite Hq in He.
    destruct (mounted (ui w)); [|done].
    apply andb_true_iff in He as [_ He]. apply andb_true_iff in He as [_ He].
    by apply bool_decide_eq_true in He. }
  unfold handleStart.
  destruct (String.eqb (userName (ui w)) "") eqn:Hn; simpl.
  { apply (sessionInvariant_start bank w); try done. apply I. }
  destruct (String.eqb (category (ui w)) "") eqn:Hc; simpl.
  { apply (sessionInvariant_start bank w); try done. apply I. }
  destruct (questionsData w !! category (ui w)) as [qs|] eqn:Hq.
  2: { apply (sessionInvariant_start bank w); try done. apply I. }
  apply String.eqb_neq in Hn, Hc. specialize (Hp qs eq_refl).
  pose proof I as [[Is1 Is2] Ib Ig Ic It Isc Ih].
  destruct (Is2 Hs) as (J1 & J2 & J3 & J4 & J5).
  pose proof (Ib (category (ui w))) as Hb. rewrite Hq in Hb.
  destruct (bank !! category (ui w)) as [l0|] eqn:Hl0; [|done].
  constructor; simpl.
  - split; [|simpl; done]. right. simpl. rewrite lookup_insert_eq. by eexists.
  - intros c. simpl. destruct (decide (category (ui w) = c)) as [<-|Hne].
    + rewrite lookup_insert_eq, Hl0. by rewrite Hp.
    + rewrite lookup_insert_ne by done. apply Ib.
  - intros _. split; [done|]. split; [done|]. split.
    + exists l0. split; [done|]. by rewrite Hp.
    + exists 0%nat. split; [done|]. destruct shuffled; [by right|left].
      simpl. lia.
  - rewrite J5. constructor.
  - lia.
  - lia.
  - done.
Qed.

Lemma revealCallback_sessionInvariant (bank : gmap string (list Question))
    (r : Reveal) (rest : list Reveal) (w : World) :
  sessionInvariant bank w -> reveals w = r :: rest ->
  sessionInvariant bank (revealCallback r (withReveals rest w)).
Proof.
  intros [[Is1 Is2] Ib Ig Ic It Isc Ih] Hr.
  assert (Hns : gameState (ui w) <> start).
  { intros Hs. destruct (Is2 Hs) as (_ & _ & _ & _ & Hnil). congruence. }
  destruct (Ig Hns) as (G1 & G2 & G3 & i0 & G4 & G5).
  rewrite Hr in Ic. apply Forall_cons in Ic as [Cr Crest].
  destruct Cr as (C1 & C2 & C3 & C4 & C5 & i & C6 & C7).
  set (w0 := withReveals rest w).
  pose proof (revealCallback_frame r w0) as F. cbv zeta in F.
  destruct F as (F1 & F2 & F3 & F4 & F5 & F6 & F7 & F8 & F9).
  assert (Hgs : gameState (ui (revealCallback r w0)) <> start).
  { destruct (revealCallback_gameState r w0) as [E|[E|E]]; rewrite E; done. }
  assert (Hsc : (score (ui w) <= score (ui (revealCallback r w0)))%Z
                /\ exists j, currentQuestionIndex (ui (revealCallback r w0))
                             = Some j
                   /\ ((j < length (currentQuestions (ui w)))%nat
                       \/ currentQuestions (ui w) = [])).
  { unfold revealCallback. destruct (correct r); cbv zeta.
    - case_bool_decide as Hlast; simpl.
      + split; [lia|]. by exists i0.
      + split; [lia|]. rewrite C6. exists (S i). split; [done|]. left.
        rewrite C6, C3 in Hlast. simpl in Hlast.
        assert (S i <> length (currentQuestions (ui w))) as Hne
          by (intros E; apply Hlast; f_equal; lia).
        lia.
    - pose proof (handleGameOver_sameGame (closure r)
                    (onUi (setGameState lost) w0)) as E.
      apply sameGame_fields in E. simpl.
      destruct E as (_ & _ & _ & _ & E5 & E6 & _).
      rewrite <- E5, <- E6. simpl. split; [lia|]. by exists i0. }
  destruct Hsc as (Hsc & j & Hj1 & Hj2).
  constructor.
  - split; [by rewrite F2, F7|done].
  - unfold sameBank. by rewrite F7.
  - intros _. rewrite F1, F2, F3. repeat split; try done. by exists j.
  - rewrite F8. simpl. eapply Forall_impl; [exact Crest|].
    intros r'. by apply closureOk_frame.
  - rewrite F6. lia.
  - lia.
  - by rewrite F9, F5.
Qed.

Lemma handle_sessionInvariant (bank : gmap string (list Question))
    (e : Event) (w : World) :
  sessionInvariant bank w -> enabled e w = true ->
  sessionInvariant bank (handle e w).
Proof.
  intros I He. pose proof (enabled_start_only e w He) as Hg.
  destruct e; unfold handle.
  - apply (sessionInvariant_start bank w); try done. apply I.
  - apply (sessionInvariant_start bank w); try done.
    apply (handle_category (ChangeCategory value) w He), I.
  - by apply handleStart_sessionInvariant.
  - by apply handleAnswer_sessionInvariant.
  - by apply (sessionInvariant_frame bank w).
  - by apply handleAnswer_sessionInvariant.
  - pose proof I as [[Is1 Is2] Ib Ig Ic It Isc Ih].
    constructor; try done. split; [done|]. simpl. congruence.
  - pose proof I as [[Is1 Is2] Ib Ig Ic It Isc Ih].
    assert (Hh : showHint (ui w) = false).
    { unfold enabled in He. apply andb_true_iff in He as [_ He].
      apply andb_true_iff in He as [_ He]. by apply negb_true_iff in He. }
    constructor; try done. simpl. by rewrite Ih, Hh.
  - pose proof I as [[Is1 Is2] Ib Ig Ic It Isc Ih].
    assert (Hc : (0 < timer (ui w))%Z).
    { unfold enabled, counting in He. apply andb_true_iff in He as [_ He].
      apply andb_true_iff in He as [_ He]. by apply Z.ltb_lt in He. }
    constructor; try done.
    + split; [done|]. simpl. congruence.
    + simpl. lia.
  - destruct (reveals w) as [|r rest] eqn:Hr; [done|].
    by apply revealCallback_sessionInvariant.
  - pose proof I as [[Is1 Is2] Ib Ig Ic It Isc Ih].
    assert (Hh : hints w <> 0%nat).
    { unfold enabled in He. apply andb_true_iff in He as [_ He].
      by apply bool_decide_eq_true in He. }
    constructor; try done. simpl.
    destruct (showHint (ui w)); [by rewrite Ih|done].
Qed.

Lemma step_sessionInvariant (bank : gmap string (list Question))
    (w : World) (e : Event) :
  sessionInvariant bank w -> sessionInvariant bank (step w e).
Proof.
  intros I. unfold step. destruct (enabled e w) eqn:He; [|done].
  by apply render_sessionInvariant, handle_sessionInvariant.
Qed.

Lemma reachable_sessionInvariant (store : option (gmap string Item))
    (bank : gmap string (list Question)) (w : World) :
  reachable store bank w -> sessionInvariant bank w.
Proof.
  intros [es ->]. induction es as [|e es IH] using rev_ind.
  - constructor; simpl; try done.
    + split; [by left|done].
    + intros c. simpl. destruct (bank !! c); [reflexivity|done].
  - rewrite run_snoc. by apply step_sessionInvariant.
Qed.

Lemma reachable_load (store : option (gmap string Item))
    (bank : gmap string (list Question)) :
  reachable store bank (load store bank).
Proof. by exists []. Qed.

Lemma reachable_run (store : option (gmap string Item))
    (bank : gmap string (list Question)) (es : list Event) (w : World) :
  reachable store bank w -> reachable store bank (run es w).
Proof.
  intros [es0 ->]. exists (es0 ++ es)%list. unfold run.
  by rewrite fold_left_app.
Qed.


Lemma handle_score (bank : gmap string (list Question)) (e : Event)
    (w : World) :
  sessionInvariant bank w -> enabled e w = true ->
  (score (ui w) <= score (ui (handle e w)))%Z.
Proof.
  intros I He. pose proof (enabled_start_only e w He) as Hg.
  destruct e; unfold handle; try (simpl; lia).
  - destruct I as [[_ Is2] _ _ _ _ _ _].
    destruct (Is2 Hg) as (_ & Hsc & _).
    unfold handleStart. destruct (_ || _); [simpl; lia|].
    destruct (_ !! _); simpl; lia.
  - destruct (handleAnswer_ui option (ui w) w) as [->|[c ->]]; simpl; lia.
  - destruct (handleAnswer_ui (userAnswer (ui w)) (ui w) w) as [->|[c ->]];
      simpl; lia.
  - destruct (reveals w) as [|r rest]; [lia|].
    unfold revealCallback. destruct (correct r); cbv zeta.
    + case_bool_decide; simpl; lia.
    + pose proof (handleGameOver_sameGame (closure r)
                    (onUi (setGameState lost) (withReveals rest w))) as E.
      apply sameGame_fields in E. destruct E as (_ & _ & _ & _ & _ & E & _).
      simpl. rewrite <- E. simpl. lia.
Qed.

(** In every session the user interface can reach the timer stays between
    0 and 30 and the score is never negative; no event lowers the score. *)
Theorem timer_and_score_stay_in_range (store : option (gmap string Item))
    (bank : gmap string (list Question)) (w : World) (e : Event) :
  reachable store bank w ->
  (0 <= timer (ui w) <= 30)%Z
  /\ (0 <= score (ui w) <= score (ui (step w e)))%Z.
Proof.
  intros Hr. pose proof (reachable_sessionInvariant store bank w Hr) as I.
  split; [apply I|]. split; [apply I|].
  unfold step. destruct (enabled e w) eqn:He; [|lia].
  pose proof (render_keeps (ui w) (handle e w)) as K. cbv zeta in K.
  destruct K as (-> & _). by apply (handle_score bank).
Qed.

Lemma timer_and_score_stay_in_range_witness :
  (0 <= timer (ui Sessions.paused) <= 30)%Z
  /\ (0 <= score (ui Sessions.paused)
      <= score (ui (step Sessions.paused RevealTimeout)))%Z.
Proof.
  apply (timer_and_score_stay_in_range Sessions.emptyStore Sessions.textBank).
  apply reachable_run, reachable_load.
Defined.

(** The bank is only ever reordered: in every reachable session it holds,
    for each category, the questions it was loaded with, in some order, and
    a session that has started plays the questions of its category, each
    once, under a name and a category that are not empty. *)
Theorem questions_are_those_of_the_bank (store : option (gmap string Item))
    (bank : gmap string (list Question)) (w : World) :
  reachable store bank w ->
  sameBank bank w
  /\ (gameState (ui w) <> start ->
        userName (ui w) <> "" /\ category (ui w) <> ""
        /\ exists original,
             bank !! category (ui w) = Some original
             /\ currentQuestions (ui w) ≡ₚ original).
Proof.
  intros Hr. pose proof (reachable_sessionInvariant store bank w Hr) as I.
  split; [apply I|]. intros Hs.
  destruct (inv_session bank w I Hs) as (H1 & H2 & H3 & _). done.
Qed.

Lemma questions_are_those_of_the_bank_witness :
  sameBank Sessions.textBank Sessions.twiceThenWin
  /\ exists original,
       Sessions.textBank !! category (ui Sessions.twiceThenWin) = Some original
       /\ currentQuestions (ui Sessions.twiceThenWin) ≡ₚ original.
Proof.
  destruct (questions_are_those_of_the_bank Sessions.emptyStore
              Sessions.textBank Sessions.twiceThenWin
              (reachable_run _ _ _ _ (reachable_run _ _ _ _
                                        (reachable_load _ _))))
    as [H1 H2].
  split; [exact H1|].
  destruct (H2 ltac:(vm_compute; discriminate)) as (_ & _ & H). exact H.
Defined.




(** ** Hints *)

(** In every reachable session at most one callback of [handleHint] is
    pending, and the hint is shown exactly while one is: the button is
    disabled while the hint shows.  Asking for a hint and the end of its
    three seconds change nothing but that: game, pending answers, store and
    bank stay as they are. *)
Theorem hint_shows_while_its_callback_is_pending
    (store : option (gmap string Item)) (bank : gmap string (list Question))
    (w : World) :
  reachable store bank w ->
  hints w = (if showHint (ui w) then 1%nat else 0%nat)
  /\ (enabled ClickHint w = true ->
        showHint (ui (step w ClickHint)) = true
        /\ hints (step w ClickHint) = 1%nat)
  /\ (enabled HintTimeout w = true ->
        showHint (ui (step w HintTimeout)) = false
        /\ hints (step w HintTimeout) = 0%nat)
  /\ forall e, e = ClickHint \/ e = HintTimeout ->
       setShowHint false (ui (step w e)) = setShowHint false (ui w)
       /\ reveals (step w e) = reveals w
       /\ localStorage (step w e) = localStorage w
       /\ questionsData (step w e) = questionsData w.
Proof.
  intros Hr. pose proof (reachable_sessionInvariant store bank w Hr) as I.
  assert (Hs : forall e, e = ClickHint \/ e = HintTimeout ->
                 enabled e w = true -> step w e = handle e w).
  { intros e He Hen. unfold step. rewrite Hen.
    unfold render. apply commit_quiet; by destruct He as [-> | ->]. }
  split; [apply I|]. split; [|split].
  - intros Hen. rewrite (Hs _ (or_introl eq_refl) Hen).
    pose proof (inv_hints bank _ (handle_sessionInvariant bank _ _ I Hen)) as H.
    simpl in *. by rewrite H.
  - intros Hen. rewrite (Hs _ (or_intror eq_refl) Hen).
    pose proof (inv_hints bank _ (handle_sessionInvariant bank _ _ I Hen)) as H.
    simpl in *. by rewrite H.
  - intros e He. destruct (enabled e w) eqn:Hen.
    + rewrite (Hs e He Hen).
      destruct He as [-> | ->]; simpl; by destruct w as [[] ? ? ? ? ?].
    + unfold step. by rewrite Hen.
Qed.

Lemma hint_shows_while_its_callback_is_pending_witness :
  let w := run (Sessions.begin [Sessions.fourQ; Sessions.pianoQ] ++ [ClickHint])
             (load Sessions.emptyStore Sessions.textBank) in
  hints w = 1%nat /\ step w ClickHint = w
  /\ showHint (ui (step w HintTimeout)) = false.
Proof.
  intros w.
  destruct (hint_shows_while_its_callback_is_pending Sessions.emptyStore
              Sessions.textBank w (reachable_run _ _ _ _ (reachable_load _ _)))
    as (H1 & _ & H3 & _).
  split; [|split].
  - transitivity (if showHint (ui w) then 1%nat else 0%nat); [exact H1|].
    vm_compute. reflexivity.
  - vm_compute. reflexivity.
  - apply H3. vm_compute. reflexivity.
Defined.

(** ** The closing screens *)





(** ** Without a store *)

Lemma handleGameOver_noStore (s : State) (w : World) :
  noStore w -> noStore (handleGameOver s w).
Proof.
  intros (H1 & H2 & H3). unfold handleGameOver, isLocalStorageAvailable.
  rewrite H1. by split.
Qed.

Lemma leaderboardEffect_noStore (s : State) (w : World) :
  noStore w -> noStore (leaderboardEffect s w).
Proof.
  intros (H1 & H2 & H3). unfold leaderboardEffect, isLocalStorageAvailable.
  destruct (_ && _); [|by split]. rewrite H1. by split.
Qed.

Lemma timerEffect_noStore (s : State) (w : World) :
  noStore w -> noStore (timerEffect s w).
Proof.
  intros H. unfold timerEffect. destruct (counting s); [done|].
  destruct (timer s =? 0)%Z; [|done].
  apply handleGameOver_noStore. by destruct H as (H1 & H2 & H3).
Qed.

Lemma commit_noStore (n : nat) (prev : State) (w : World) :
  noStore w -> noStore (commit n prev w).
Proof.
  revert prev w. induction n as [|n IH]; intros prev w H; [done|].
  rewrite commit_S. cbv zeta. apply IH.
  destruct (bool_decide (timerDeps prev = timerDeps (ui w))),
    (bool_decide (category prev = category (ui w)));
    auto using timerEffect_noStore, leaderboardEffect_noStore.
Qed.

Lemma handle_noStore (e : Event) (w : World) :
  noStore w -> noStore (handle e w).
Proof.
  intros H. pose proof H as (H1 & H2 & H3).
  destruct e; unfold handle; try done.
  - unfold handleStart. destruct (_ || _); [done|].
    by destruct (questionsData w !! _).
  - by destruct (handleAnswer_ui option (ui w) w) as [->|[c ->]].
  - by destruct (handleAnswer_ui (userAnswer (ui w)) (ui w) w) as [->|[c ->]].
  - destruct (reveals w) as [|r rest]; [done|].
    unfold revealCallback. destruct (correct r); cbv zeta.
    + by case_bool_decide.
    + destruct (handleGameOver_noStore (closure r)
                  (onUi (setGameState lost) (withReveals rest w)))
        as (G1 & G2 & G3); by split.
Qed.

(** When the browser gives no access to localStorage the game is played all
    the same and nothing is ever stored: in every reachable session the
    store is absent, the leaderboard is empty and the highest score is 0, so
    both closing screens show that there are no scores. *)
Theorem without_store_nothing_is_kept (bank : gmap string (list Question))
    (w : World) :
  reachable None bank w ->
  localStorage w = None /\ leaderboard (ui w) = []
  /\ highestScore (ui w) = 0%Z /\ renderLeaderboard (ui w) = NoScores.
Proof.
  intros [es ->].
  assert (H : noStore (run es (load None bank))).
  { induction es as [|e es IH] using rev_ind; [by split|].
    rewrite run_snoc. unfold step. destruct (enabled e _); [|done].
    by apply commit_noStore, handle_noStore. }
  destruct H as (H1 & H2 & H3). repeat split; try done.
  unfold renderLeaderboard. rewrite H2. simpl. by rewrite orb_true_r.
Qed.

Lemma without_store_nothing_is_kept_witness :
  let w := run (Sessions.begin [Sessions.fourQ; Sessions.pianoQ]
                ++ Sessions.submit "drum" ++ [RevealTimeout])
             (load None Sessions.textBank) in
  gameState (ui w) = lost /\ screen (ui w) = Some (LostScreen NoScores).
Proof.
  intros w.
  destruct (without_store_nothing_is_kept Sessions.textBank w
              (reachable_run _ _ _ _ (reachable_load _ _)))
    as (_ & _ & _ & H).
  split; [vm_compute; reflexivity|].
  transitivity (Some (LostScreen (renderLeaderboard (ui w))));
    [vm_compute; reflexivity|by rewrite H].
Defined.

(** ** A category without questions *)

Lemma step_start_success (shuffled qs : list Question) (w : World) :
  enabled (ClickStart shuffled) w = true ->
  userName (ui w) <> "" -> category (ui w) <> "" ->
  questionsData w !! category (ui w) = Some qs ->
  currentQuestions (ui (step w (ClickStart shuffled))) = shuffled
  /\ currentQuestionIndex (ui (step w (ClickStart shuffled))) = Some 0%nat
  /\ gameState (ui (step w (ClickStart shuffled))) = playing.
Proof.
  intros He Hn Hc Hq. unfold step. rewrite He. unfold handle, handleStart.
  rewrite (proj2 (String.eqb_neq _ _) Hn), (proj2 (String.eqb_neq _ _) Hc), Hq.
  cbn [orb]. by rewrite render_idle.
Qed.

(** Starting a category whose list is empty leaves the component without a
    screen: the game is playing at index 0 of no questions, the playing
    screen reads a question that is not there, and no event is taken any
    more. *)
Theorem empty_category_has_no_screen (w : World) :
  enabled (ClickStart []) w = true ->
  userName (ui w) <> "" -> category (ui w) <> "" ->
  questionsData w !! category (ui w) = Some [] ->
  let w' := step w (ClickStart []) in
  gameState (ui w') = playing /\ screen (ui w') = None
  /\ forall e, step w' e = w'.
Proof.
  intros He Hn Hc Hq w'. subst w'.
  destruct (step_start_success [] [] w He Hn Hc Hq) as (H1 & H2 & H3).
  split; [done|].
  assert (Hm : mounted (ui (step w (ClickStart []))) = false).
  { unfold mounted. by rewrite H3, H2, H1. }
  split.
  - unfold screen. by rewrite H3, H2, H1.
  - intros e. unfold step at 1. unfold enabled. by rewrite Hm.
Qed.

Lemma empty_category_has_no_screen_witness :
  let w := run [ChangeUserName "Ann"; ChangeCategory "art"]
             (load Sessions.emptyStore {[ "art" := [] ]}) in
  screen (ui (step w (ClickStart []))) = None.
Proof.
  intros w.
  destruct (empty_category_has_no_screen w ltac:(vm_compute; reflexivity)
              ltac:(vm_compute; discriminate) ltac:(vm_compute; discriminate)
              ltac:(vm_compute; reflexivity)) as (_ & H & _).
  exact H.
Defined.
